(** * RP2040 machine package: I2C master driver and GPIO interrupt dispatch

    Shallow embedding of [src/machine/machine_rp2040_i2c.go] and of the
    interrupt part of [src/machine/machine_rp2040_gpio.go].

    Memory-mapped registers are volatile: what a load returns is decided by
    the hardware, not by the last store.  The hardware is therefore a
    [device], a function from the access history to the value of the next
    load, and every load and store is appended to a log.  Busy-wait loops
    take a bound on their number of iterations and report [Spins] when the
    bound is reached. *)

From Stdlib Require Import ZArith List String Bool Lia.
From stdpp Require Import base list.
Import ListNotations.
Open Scope Z_scope.

(** ** Machine integers *)

Definition uint32 (x : Z) : Z := x mod 2 ^ 32.
Definition uint8 (x : Z) : Z := x mod 2 ^ 8.

Definition boolToBit (a : bool) : Z := if a then 1 else 0.

Definition umax32 (a b : Z) : Z := if a >? b then a else b.

Definition MHz : Z := 1000000.

(** ** Registers and the access log *)

Inductive reg : Type :=
| IC_CON | IC_TAR | IC_DATA_CMD | IC_FS_SCL_HCNT | IC_FS_SCL_LCNT
| IC_RAW_INTR_STAT | IC_RX_TL | IC_TX_TL | IC_CLR_TX_ABRT | IC_CLR_STOP_DET
| IC_ENABLE | IC_RXFLR | IC_SDA_HOLD | IC_TX_ABRT_SOURCE | IC_DMA_CR
| IC_FS_SPKLEN
| RESETS_RESET | RESETS_RESET_DONE
| SPINLOCK (num : Z)
| NVIC_ICPR | NVIC_ISER | NVIC_ICER
| PROC_INTS (core idx : Z).

Definition reg_eqb (a b : reg) : bool :=
  match a, b with
  | IC_CON, IC_CON | IC_TAR, IC_TAR | IC_DATA_CMD, IC_DATA_CMD
  | IC_FS_SCL_HCNT, IC_FS_SCL_HCNT | IC_FS_SCL_LCNT, IC_FS_SCL_LCNT
  | IC_RAW_INTR_STAT, IC_RAW_INTR_STAT | IC_RX_TL, IC_RX_TL
  | IC_TX_TL, IC_TX_TL | IC_CLR_TX_ABRT, IC_CLR_TX_ABRT
  | IC_CLR_STOP_DET, IC_CLR_STOP_DET | IC_ENABLE, IC_ENABLE
  | IC_RXFLR, IC_RXFLR | IC_SDA_HOLD, IC_SDA_HOLD
  | IC_TX_ABRT_SOURCE, IC_TX_ABRT_SOURCE | IC_DMA_CR, IC_DMA_CR
  | IC_FS_SPKLEN, IC_FS_SPKLEN | RESETS_RESET, RESETS_RESET
  | RESETS_RESET_DONE, RESETS_RESET_DONE
  | NVIC_ICPR, NVIC_ICPR | NVIC_ISER, NVIC_ISER | NVIC_ICER, NVIC_ICER => true
  | SPINLOCK n, SPINLOCK m => n =? m
  | PROC_INTS k i, PROC_INTS k' i' => (k =? k') && (i =? i')
  | _, _ => false
  end.

(** Functions stored in the vector table and in the callback table are
    compared with [nil] only; a function value is modelled by its name. *)
Inductive irqHandler : Type :=
| gpioirqHandler_fn
| user_handler (name : nat).

Definition callback : Type := nat.

(** What a call does to the outside, in order: a load of a register with
    the value it returned, a store with the value written, masking and
    restoring interrupts, a memory barrier, the calls to the pin helpers
    [setInterrupt] and [acknowledgeInterrupt] (defined in another file of
    the package, logged with their arguments), and the call of a user
    callback with its arguments. *)
Inductive event : Type :=
| Load (r : reg) (v : Z)
| Store (r : reg) (v : Z)
| InterruptDisable
| InterruptRestore
| Dmb
| SetInterrupt (p change : Z) (enabled : bool)
| AcknowledgeInterrupt (p change : Z)
| Call (f : callback) (args : list Z).

(** The log holds the newest event first. *)
Definition log := list event.

(** The hardware: the value of the next load of [r] after the history. *)
Definition device := log -> reg -> Z.

Definition is_store_to (r : reg) (a : event) : bool :=
  match a with Store r' _ => reg_eqb r r' | _ => false end.

Definition is_load_of (r : reg) (a : event) : bool :=
  match a with Load r' _ => reg_eqb r r' | _ => false end.

(** Number of stores to [r] and of loads of [r] in a log. *)
Fixpoint stores_to (r : reg) (l : log) : nat :=
  match l with
  | [] => 0%nat
  | a :: l' => ((if is_store_to r a then 1 else 0) + stores_to r l')%nat
  end.

Fixpoint loads_of (r : reg) (l : log) : nat :=
  match l with
  | [] => 0%nat
  | a :: l' => ((if is_load_of r a then 1 else 0) + loads_of r l')%nat
  end.

(** The value last stored to [r], when there is one. *)
Fixpoint last_store (r : reg) (l : log) : option Z :=
  match l with
  | [] => None
  | Store r' v :: l' => if reg_eqb r r' then Some v else last_store r l'
  | _ :: l' => last_store r l'
  end.

(** ** Constants of the generated [device/rp] package

    The register bit layout comes from [device/rp], which is generated
    from the SVD file.  The driver is modelled over any such table. *)
Record rp : Type := {
  I2C0_IC_FS_SCL_HCNT_IC_FS_SCL_HCNT_Msk : Z;
  I2C0_IC_FS_SCL_LCNT_IC_FS_SCL_LCNT_Msk : Z;
  I2C0_IC_ENABLE_ENABLE_DISABLED : Z;
  I2C0_IC_CON_SPEED_FAST : Z;
  I2C0_IC_CON_SPEED_Msk : Z;
  I2C0_IC_CON_SPEED_Pos : Z;
  I2C0_IC_CON_MASTER_MODE : Z;
  I2C0_IC_CON_IC_SLAVE_DISABLE : Z;
  I2C0_IC_CON_IC_RESTART_EN : Z;
  I2C0_IC_CON_TX_EMPTY_CTRL : Z;
  I2C0_IC_SDA_HOLD_IC_SDA_RX_HOLD_Msk : Z;
  I2C0_IC_SDA_HOLD_IC_SDA_RX_HOLD_Pos : Z;
  I2C0_IC_DMA_CR_TDMAE : Z;
  I2C0_IC_DMA_CR_RDMAE : Z;
  I2C0_IC_DATA_CMD_RESTART_Pos : Z;
  I2C0_IC_DATA_CMD_STOP_Pos : Z;
  I2C0_IC_DATA_CMD_CMD : Z;
  I2C0_IC_RAW_INTR_STAT_TX_EMPTY : Z;
  I2C0_IC_RAW_INTR_STAT_STOP_DET : Z;
  I2C0_IC_TX_ABRT_SOURCE_ABRT_7B_ADDR_NOACK : Z;
  I2C0_IC_TX_ABRT_SOURCE_ABRT_TXDATA_NOACK : Z;
  I2C0_IC_COMP_PARAM_1_TX_BUFFER_DEPTH_Pos : Z;
  RESETS_RESET_I2C0 : Z;
  RESETS_RESET_I2C1 : Z;
  IRQ_IO_IRQ_BANK0 : Z
}.

(** Modelled from the spec: [device/rp] is not among the files modelled
    here and the spec leaves the bit layout to the register contract of
    the chip; this is the table of the RP2040 datasheet.  The general
    theorems hold for any table; the concrete runs use this one. *)
Definition rp2040 : rp := {|
  I2C0_IC_FS_SCL_HCNT_IC_FS_SCL_HCNT_Msk := 0xffff;
  I2C0_IC_FS_SCL_LCNT_IC_FS_SCL_LCNT_Msk := 0xffff;
  I2C0_IC_ENABLE_ENABLE_DISABLED := 0;
  I2C0_IC_CON_SPEED_FAST := 2;
  I2C0_IC_CON_SPEED_Msk := 0x6;
  I2C0_IC_CON_SPEED_Pos := 1;
  I2C0_IC_CON_MASTER_MODE := 0x1;
  I2C0_IC_CON_IC_SLAVE_DISABLE := 0x40;
  I2C0_IC_CON_IC_RESTART_EN := 0x20;
  I2C0_IC_CON_TX_EMPTY_CTRL := 0x100;
  I2C0_IC_SDA_HOLD_IC_SDA_RX_HOLD_Msk := 0xff0000;
  I2C0_IC_SDA_HOLD_IC_SDA_RX_HOLD_Pos := 16;
  I2C0_IC_DMA_CR_TDMAE := 0x2;
  I2C0_IC_DMA_CR_RDMAE := 0x1;
  I2C0_IC_DATA_CMD_RESTART_Pos := 10;
  I2C0_IC_DATA_CMD_STOP_Pos := 9;
  I2C0_IC_DATA_CMD_CMD := 0x100;
  I2C0_IC_RAW_INTR_STAT_TX_EMPTY := 0x10;
  I2C0_IC_RAW_INTR_STAT_STOP_DET := 0x200;
  I2C0_IC_TX_ABRT_SOURCE_ABRT_7B_ADDR_NOACK := 0x1;
  I2C0_IC_TX_ABRT_SOURCE_ABRT_TXDATA_NOACK := 0x8;
  I2C0_IC_COMP_PARAM_1_TX_BUFFER_DEPTH_Pos := 16;
  RESETS_RESET_I2C0 := 0x8;
  RESETS_RESET_I2C1 := 0x10;
  IRQ_IO_IRQ_BANK0 := 13
|}.

(** ** Errors *)

Inductive error : Type :=
| errInvalidI2CBaudrate
| errInvalidTgtAddr
| errI2CTimeout
| errI2CGeneric
| i2cBuffError (idx : Z).

Definition makeI2CBuffError (idx : Z) : error := i2cBuffError idx.

(** ** The [I2C] struct and the state of a call *)

Inductive bus_block : Type := I2C0 | I2C1.

Record I2C : Type := mkI2C {
  Bus : bus_block;
  restartOnNext : bool
}.

(** The state a call works on: the [I2C] object, the vector table, the
    per-core [pinCallbacks] table, and the log of events. *)
Record state : Type := mkState {
  self : I2C;
  vtable : list (option irqHandler);
  pinCallbacks : list (option callback);
  io : log
}.

Definition set_restartOnNext (b : bool) (s : state) : state :=
  mkState (mkI2C (Bus (self s)) b) (vtable s) (pinCallbacks s) (io s).

Definition emit (e : event) (s : state) : state :=
  mkState (self s) (vtable s) (pinCallbacks s) (e :: io s).

Definition set_vtable (t : list (option irqHandler)) (s : state) : state :=
  mkState (self s) t (pinCallbacks s) (io s).

Definition set_pinCallbacks (t : list (option callback)) (s : state)
    : state :=
  mkState (self s) (vtable s) t (io s).

(** ** Outcomes: a call returns, panics, or spins in a busy-wait loop *)

Inductive outcome (A : Type) : Type :=
| Returns (a : A)
| Panics (msg : string)
| Spins.
Arguments Returns {A} a.
Arguments Panics {A} msg.
Arguments Spins {A}.

Definition M (A : Type) : Type := state -> outcome (A * state).

#[export] Instance M_ret : MRet M := fun A a s => Returns (a, s).

#[export] Instance M_bind : MBind M := fun A B k m s =>
  match m s with
  | Returns (a, s') => k a s'
  | Panics msg => Panics msg
  | Spins => Spins
  end.

Definition panic {A} (msg : string) : M A := fun _ => Panics msg.
Definition spin {A} : M A := fun _ => Spins.

(** What a call returned, if it returned. *)
Definition result {A} (o : outcome (A * state)) : option A :=
  match o with Returns (a, _) => Some a | _ => None end.

Section Driver.

Variable c : rp.
Variable dev : device.

(** ** Volatile register operations

    Modelled from the spec: the methods of [volatile.Register32] (package
    [runtime/volatile]) are not among the files modelled here.  A load is
    a side-effecting operation answered by the device (some registers
    clear when read), a store is logged, and the bit operations are a
    load followed by a store on 32 bits. *)

Definition Get (r : reg) : M Z :=
  fun s =>
    let v := uint32 (dev (io s) r) in
    Returns (v, emit (Load r v) s).

Definition Set_ (r : reg) (v : Z) : M unit :=
  fun s => Returns (tt, emit (Store r (uint32 v)) s).

Definition SetBits (r : reg) (v : Z) : M unit :=
  old ← Get r; Set_ r (Z.lor old v).

Definition ClearBits (r : reg) (v : Z) : M unit :=
  old ← Get r; Set_ r (Z.ldiff old v).

Definition HasBits (r : reg) (v : Z) : M bool :=
  x ← Get r; mret (negb (Z.land x v =? 0)).

Definition ReplaceBits (r : reg) (value mask pos : Z) : M unit :=
  old ← Get r; 
  Set_ r (Z.lor (Z.ldiff old (uint32 (Z.shiftl mask pos)))
                (uint32 (Z.shiftl value pos))).

Definition get_restartOnNext : M bool :=
  fun s => Returns (restartOnNext (self s), s).

Definition put_restartOnNext (b : bool) : M unit :=
  fun s => Returns (tt, set_restartOnNext b s).

(** ** enable, disable *)

Definition enable : M unit := Set_ IC_ENABLE 1.
Definition disable : M unit := Set_ IC_ENABLE 0.

(** ** SetBaudrate *)

Definition period (br : Z) : Z := uint32 (uint32 (125 * MHz) + br / 2) / br.
Definition lcnt (br : Z) : Z := uint32 (period br * 3) / 5.
Definition hcnt (br : Z) : Z := uint32 (period br - lcnt br).

Definition sdaTxHoldCnt (br : Z) : Z :=
  let freqin := uint32 (125 * MHz) in
  let sdaTxHoldCnt := uint32 (uint32 (freqin * 3) / 10000000 + 1) in
  if br >=? 1000000
  then uint32 (uint32 (freqin * 3) / 25000000 + 1)
  else sdaTxHoldCnt.

Definition SetBaudrate (br : Z) : M (option error) :=
  if br =? 0 then panic "integer divide by zero" else
  if (hcnt br >? I2C0_IC_FS_SCL_HCNT_IC_FS_SCL_HCNT_Msk c)
     || (hcnt br <? 8)
     || (lcnt br >? I2C0_IC_FS_SCL_LCNT_IC_FS_SCL_LCNT_Msk c)
     || (lcnt br <? 8)
  then mret (Some errInvalidI2CBaudrate) else
  if sdaTxHoldCnt br <=? uint32 (lcnt br - 2)
  then mret (Some errInvalidI2CBaudrate) else
  disable;;
  Set_ IC_ENABLE (I2C0_IC_ENABLE_ENABLE_DISABLED c);;
  ReplaceBits IC_CON (I2C0_IC_CON_SPEED_FAST c) (I2C0_IC_CON_SPEED_Msk c)
              (I2C0_IC_CON_SPEED_Pos c);;
  Set_ IC_FS_SCL_HCNT (hcnt br);;
  Set_ IC_FS_SCL_LCNT (lcnt br);;
  Set_ IC_FS_SPKLEN (umax32 1 (lcnt br / 16));;
  ReplaceBits IC_SDA_HOLD (sdaTxHoldCnt br)
              (I2C0_IC_SDA_HOLD_IC_SDA_RX_HOLD_Msk c)
              (I2C0_IC_SDA_HOLD_IC_SDA_RX_HOLD_Pos c);;
  enable;;
  mret None.

(** ** reset, deinit, init, Configure *)

Definition get_Bus : M bus_block :=
  fun s => Returns (Bus (self s), s).

Definition deinit : M Z :=
  b ← get_Bus;
  let resetVal :=
    match b with
    | I2C0 => RESETS_RESET_I2C0 c
    | I2C1 => RESETS_RESET_I2C1 c
    end in
  SetBits RESETS_RESET resetVal;;
  mret resetVal.

Fixpoint wait_reset_done (fuel : nat) (resetVal : Z) : M unit :=
  match fuel with
  | O => spin
  | S fuel' =>
      done ← HasBits RESETS_RESET_DONE resetVal;
      if negb done then wait_reset_done fuel' resetVal else mret tt
  end.

Definition reset (fuel : nat) : M unit :=
  resetVal ← deinit;
  ClearBits RESETS_RESET resetVal;;
  wait_reset_done fuel resetVal.

Definition init (fuel : nat) (Frequency : Z) : M (option error) :=
  reset fuel;;
  disable;;
  put_restartOnNext false;;
  Set_ IC_CON
    (Z.lor (Z.lor (Z.lor (Z.lor
       (Z.shiftl (I2C0_IC_CON_SPEED_FAST c) (I2C0_IC_CON_SPEED_Pos c))
       (I2C0_IC_CON_MASTER_MODE c))
       (I2C0_IC_CON_IC_SLAVE_DISABLE c))
       (I2C0_IC_CON_IC_RESTART_EN c))
       (I2C0_IC_CON_TX_EMPTY_CTRL c));;
  Set_ IC_TX_TL 0;;
  Set_ IC_RX_TL 0;;
  Set_ IC_DMA_CR (Z.lor (I2C0_IC_DMA_CR_TDMAE c) (I2C0_IC_DMA_CR_RDMAE c));;
  SetBaudrate Frequency.

Definition Configure (fuel : nat) (Frequency : Z) : M (option error) :=
  init fuel Frequency.

(** ** Transfers *)

Definition isReservedI2CAddr (addr : Z) : bool :=
  (Z.land addr 0x78 =? 0) || (Z.land addr 0x78 =? 0x78).

(** The two polls of [IC_RAW_INTR_STAT] in [tx]: the loop runs while the
    bits of [mask] are set.  The result is [true] when the loop body
    returned [errI2CTimeout] (after storing [nostop] in [restartOnNext]). *)
Fixpoint wait_raw_intr_stat (fuel : nat) (mask : Z)
    (timeoutCheck nostop : bool) : M bool :=
  match fuel with
  | O => spin
  | S fuel' =>
      v ← Get IC_RAW_INTR_STAT;
      if negb (Z.land v mask =? 0) then
        if timeoutCheck
        then put_restartOnNext nostop;; mret true
        else wait_raw_intr_stat fuel' mask timeoutCheck nostop
      else mret false
  end.

(** How the byte loop of [tx] and [rx] is left: by the timeout return, or
    at its end (or [break]) with the loop variables. *)
Inductive loop_exit : Type :=
| TimedOut
| LoopDone (abort : bool) (abortReason : Z) (byteCtr : nat).

Definition data_cmd (first last restart nostop : bool) (payload : Z) : Z :=
  Z.lor (Z.lor
    (Z.shiftl (boolToBit (first && restart)) (I2C0_IC_DATA_CMD_RESTART_Pos c))
    (Z.shiftl (boolToBit (last && negb nostop)) (I2C0_IC_DATA_CMD_STOP_Pos c)))
    payload.

(** The byte loop of [tx]; [todo] is [tlen - byteCtr], the number of
    iterations left. *)
Fixpoint tx_loop (fuel : nat) (data : list Z) (nostop timeoutCheck : bool)
    (todo byteCtr : nat) (abort : bool) (abortReason : Z) : M loop_exit :=
  match todo with
  | O => mret (LoopDone abort abortReason byteCtr)
  | S todo' =>
      let tlen := length data in
      let first := (byteCtr =? 0)%nat in
      let last := (byteCtr =? tlen - 1)%nat in
      match data !! byteCtr with
      | None => panic "index out of range"
      | Some b =>
          restart ← get_restartOnNext;
          Set_ IC_DATA_CMD (data_cmd first last restart nostop (uint8 b));;
          timedout ← wait_raw_intr_stat fuel
                       (I2C0_IC_RAW_INTR_STAT_TX_EMPTY c) timeoutCheck nostop;
          if timedout : bool then mret TimedOut else
          abortReason ← Get IC_TX_ABRT_SOURCE;
          abort ← (if negb (abortReason =? 0)
                   then Get IC_CLR_TX_ABRT;; mret true
                   else mret abort);
          timedout ← (if abort || (last && negb nostop)
                      then
                        t ← wait_raw_intr_stat fuel
                              (I2C0_IC_RAW_INTR_STAT_STOP_DET c)
                              timeoutCheck nostop;
                        if t : bool then mret true
                        else Get IC_CLR_STOP_DET;; mret false
                      else mret false);
          if timedout : bool then mret TimedOut else
          tx_loop fuel data nostop timeoutCheck todo' (S byteCtr)
                  abort abortReason
      end
  end.

(** The switch on [abortReason] after the loop of [tx]. *)
Definition tx_classify (abortReason : Z) (byteCtr : nat) : error :=
  if (abortReason =? 0)
     || negb (Z.land abortReason
                (I2C0_IC_TX_ABRT_SOURCE_ABRT_7B_ADDR_NOACK c) =? 0)
  then errI2CGeneric
  else if negb (Z.land abortReason
                  (I2C0_IC_TX_ABRT_SOURCE_ABRT_TXDATA_NOACK c) =? 0)
  then makeI2CBuffError (Z.of_nat byteCtr)
  else makeI2CBuffError (Z.of_nat byteCtr).

Definition tx (fuel : nat) (addr : Z) (data : list Z) (nostop : bool)
    (timeout : Z) : M (option error) :=
  if (addr >=? 0x80) || isReservedI2CAddr addr
  then mret (Some errInvalidTgtAddr) else
  let tlen := length data in
  if (tlen =? 0)%nat then mret None else
  disable;;
  Set_ IC_TAR addr;;
  enable;;
  let timeoutCheck := negb (timeout =? 0) in
  e ← tx_loop fuel data nostop timeoutCheck tlen 0 false 0;
  match e with
  | TimedOut => mret (Some errI2CTimeout)
  | LoopDone abort abortReason byteCtr =>
      let err := if abort then Some (tx_classify abortReason byteCtr)
                 else None in
      put_restartOnNext nostop;;
      mret err
  end.

Definition writeAvailable : M Z :=
  v ← Get IC_RXFLR;
  mret (uint32 (I2C0_IC_COMP_PARAM_1_TX_BUFFER_DEPTH_Pos c - v)).

Definition readAvailable : M Z := Get IC_RXFLR.

Fixpoint wait_writeAvailable (fuel : nat) : M unit :=
  match fuel with
  | O => spin
  | S fuel' =>
      n ← writeAvailable;
      if n =? 0 then wait_writeAvailable fuel' else mret tt
  end.

(** How the wait for a received byte in [rx] is left. *)
Inductive poll_exit : Type :=
| PollTimedOut
| PollDone (abort : bool) (abortReason : Z).

Fixpoint wait_readAvailable (fuel : nat) (timeoutCheck nostop : bool)
    (abort : bool) (abortReason : Z) : M poll_exit :=
  match fuel with
  | O => spin
  | S fuel' =>
      n ← readAvailable;
      if (n =? 0) && negb abort then
        abortReason ← Get IC_TX_ABRT_SOURCE;
        let abort := if negb (abortReason =? 0) then true else abort in
        if timeoutCheck
        then put_restartOnNext nostop;; mret PollTimedOut
        else wait_readAvailable fuel' timeoutCheck nostop abort abortReason
      else mret (PollDone abort abortReason)
  end.

(** The byte loop of [rx]; the buffer is returned with the bytes stored
    in it. *)
Fixpoint rx_loop (fuel : nat) (nostop timeoutCheck : bool)
    (todo byteCtr : nat) (abort : bool) (abortReason : Z) (buf : list Z)
    : M (loop_exit * list Z) :=
  match todo with
  | O => mret (LoopDone abort abortReason byteCtr, buf)
  | S todo' =>
      let rlen := length buf in
      let first := (byteCtr =? 0)%nat in
      let last := (byteCtr =? rlen - 1)%nat in
      wait_writeAvailable fuel;;
      restart ← get_restartOnNext;
      Set_ IC_DATA_CMD
        (data_cmd first last restart nostop (I2C0_IC_DATA_CMD_CMD c));;
      p ← wait_readAvailable fuel timeoutCheck nostop abort abortReason;
      match p with
      | PollTimedOut => mret (TimedOut, buf)
      | PollDone abort abortReason =>
          if abort then mret (LoopDone abort abortReason byteCtr, buf) else
          v ← Get IC_DATA_CMD;
          if (byteCtr <? rlen)%nat
          then rx_loop fuel nostop timeoutCheck todo' (S byteCtr)
                       abort abortReason (<[byteCtr := uint8 v]> buf)
          else panic "index out of range"
      end
  end.

(** The switch on [abortReason] after the loop of [rx]. *)
Definition rx_classify (abortReason : Z) (byteCtr : nat) : error :=
  if (abortReason =? 0)
     || negb (Z.land abortReason
                (I2C0_IC_TX_ABRT_SOURCE_ABRT_7B_ADDR_NOACK c) =? 0)
  then errI2CGeneric
  else makeI2CBuffError (Z.of_nat byteCtr).

Definition rx (fuel : nat) (addr : Z) (buf : list Z) (nostop : bool)
    (deadline : Z) : M (option error * list Z) :=
  if (addr >=? 0x80) || isReservedI2CAddr addr
  then mret (Some errInvalidTgtAddr, buf) else
  let rlen := length buf in
  if (rlen =? 0)%nat then mret (None, buf) else
  disable;;
  Set_ IC_TAR addr;;
  enable;;
  let timeoutCheck := deadline =? 0 in
  e ← rx_loop fuel nostop timeoutCheck rlen 0 false 0 buf;
  match e with
  | (TimedOut, buf') => mret (Some errI2CTimeout, buf')
  | (LoopDone abort abortReason byteCtr, buf') =>
      let err := if abort then Some (rx_classify abortReason byteCtr)
                 else None in
      put_restartOnNext nostop;;
      mret (err, buf')
  end.

(** ** Tx *)

Definition Tx (fuel : nat) (addr : Z) (w r : list Z)
    : M (option error * list Z) :=
  err ← (if (0 <? length w)%nat
         then tx fuel (uint8 addr) w false 0
         else mret None);
  match err with
  | Some e => mret (Some e, r)
  | None =>
      if (0 <? length r)%nat
      then rx fuel (uint8 addr) r false 0
      else mret (None, r)
  end.

(** ** Spin locks *)

Definition _NUMSPINLOCKS : Z := 32.
Definition _NUMIRQ : Z := 32.
Definition _PICO_SPINLOCK_ID_IRQ : Z := 9.
Definition _NUMBANK0_GPIOS : Z := 30.

Definition log_event (e : event) : M unit :=
  fun s => Returns (tt, emit e s).

Definition memFenceAcquire : M unit := log_event Dmb.
Definition memFenceRelease : M unit := log_event Dmb.

(** [lock.init]: the register of the lock, or the panic. *)
Definition spinLock_init (lockID : Z) : M reg :=
  if lockID >=? _NUMSPINLOCKS then panic "spinlocknum >= 32"
  else mret (SPINLOCK lockID).

Fixpoint spinLock_wait (fuel : nat) (lock : reg) : M unit :=
  match fuel with
  | O => spin
  | S fuel' =>
      v ← Get lock;
      if negb (v =? 0) then spinLock_wait fuel' lock else mret tt
  end.

Definition spinLock_lock (fuel : nat) (lock : reg) : M unit :=
  log_event InterruptDisable;;
  spinLock_wait fuel lock;;
  memFenceAcquire.

Definition spinLock_unlock (lock : reg) : M unit :=
  memFenceRelease;;
  Set_ lock 0;;
  log_event InterruptRestore.

(** ** The vector table *)

Definition getVtableHandler (num : Z) : M (option irqHandler) :=
  if num >=? _NUMIRQ then mret None else
  fun s =>
    match vtable s !! Z.to_nat (num + 16) with
    | Some h => Returns (h, s)
    | None => Panics "index out of range"
    end.

Definition setVtableHandler (num : Z) (handler : option irqHandler)
    : M unit :=
  fun s =>
    if (Z.to_nat (16 + num) <? length (vtable s))%nat
    then Returns (tt, set_vtable (<[Z.to_nat (16 + num) := handler]>
                                    (vtable s)) s)
    else Panics "index out of range".

Definition irqSetExclusiveHandler (fuel : nat) (num : Z)
    (handler : option irqHandler) : M unit :=
  if num >=? _NUMIRQ then panic "ErrInvalidInputPin" else
  lock ← spinLock_init _PICO_SPINLOCK_ID_IRQ;
  spinLock_lock fuel lock;;
  current ← getVtableHandler num;
  match current with
  | Some _ => panic "can't set handler due to non nil actual handler"
  | None =>
      setVtableHandler num handler;;
      spinLock_unlock lock
  end.

Definition irqSetMask (mask : Z) (enabled : bool) : M unit :=
  if enabled
  then Set_ NVIC_ICPR mask;; Set_ NVIC_ISER mask
  else Set_ NVIC_ICER mask.

Definition irqSet (num : Z) (enabled : bool) : M unit :=
  if num >=? _NUMIRQ then mret tt
  else irqSetMask (Z.shiftl 1 num) enabled.

(** ** Pin interrupts

    [core] is what [CurrentCore()] returns on the executing core. *)

(** [pinCallbacks[core] = cb] *)
Definition store_pinCallback (core : Z) (cb : option callback) : M unit :=
  fun s =>
    if (0 <=? core) && (Z.to_nat core <? length (pinCallbacks s))%nat
    then Returns (tt, set_pinCallbacks
                        (<[Z.to_nat core := cb]> (pinCallbacks s)) s)
    else Panics "index out of range".

(** [callback := pinCallbacks[core]] followed by the call [callback(gpio)]
    or the panic on [nil]. *)
Definition call_pinCallback (core gpio : Z) : M unit :=
  fun s =>
    if (0 <=? core) then
      match pinCallbacks s !! Z.to_nat core with
      | Some (Some cb) => Returns (tt, emit (Call cb [gpio]) s)
      | Some None => Panics "unset callback in handler"
      | None => Panics "index out of range"
      end
    else Panics "index out of range".

Definition setIRQ (fuel : nat) (core : Z) (p change : Z)
    (cb : option callback) : M unit :=
  log_event (SetInterrupt p change true);;
  store_pinCallback core cb;;
  irqSetExclusiveHandler fuel (IRQ_IO_IRQ_BANK0 c) (Some gpioirqHandler_fn);;
  irqSet (IRQ_IO_IRQ_BANK0 c) true.

Section Dispatch.

(** [getIntChange] is not part of the files modelled here: the change
    bits of a pin in the value of its status register. *)
Variable getIntChange : Z -> Z -> Z.

(** The loop of [gpioirqHandler] from pin [gpio] on; [todo] is
    [_NUMBANK0_GPIOS - gpio]. *)
Fixpoint gpio_scan (todo : nat) (core gpio : Z) : M unit :=
  match todo with
  | O => panic "gpio INT status not found"
  | S todo' =>
      status ← Get (PROC_INTS core (Z.shiftr gpio 3));
      let change := getIntChange gpio status in
      if negb (change =? 0) then
        log_event (AcknowledgeInterrupt gpio change);;
        call_pinCallback core gpio
      else gpio_scan todo' core (gpio + 1)
  end.

Definition gpioirqHandler (core : Z) : M unit :=
  if (core =? 0) || (core =? 1)
  then gpio_scan (Z.to_nat _NUMBANK0_GPIOS) core 0
  else panic "nil pointer dereference".

End Dispatch.

End Driver.

(** Modelled from the spec: [getIntChange] is not among the files
    modelled here and the spec treats the bit layout as a fixed register
    contract.  These are the change bits of a pin as the RP2040 lays them
    out, four bits per pin and eight pins per register (the layout
    [setIRQEnabled] writes with [events << 4 * (p % 8)] into register
    [p / 8]). *)
Definition getIntChange_rp2040 (p status : Z) : Z :=
  Z.land (Z.shiftr status (4 * (p mod 8))) 0xf.

(** ** Fixtures: a reset machine and some devices *)

(** Nothing installed, nothing logged, bus closed. *)
Definition idle : state :=
  mkState (mkI2C I2C0 false) (replicate 48 None) [None; None] [].

(** Every load of every register returns 0. *)
Definition quiet : device := fun _ _ => 0.

(** [IC_TX_ABRT_SOURCE] reads [reason] from its load number [k] on (counted
    from 0) and 0 before; every other register reads 0. *)
Definition nack_from (k : nat) (reason : Z) : device :=
  fun h r =>
    match r with
    | IC_TX_ABRT_SOURCE =>
        if (k <=? loads_of IC_TX_ABRT_SOURCE h)%nat then reason else 0
    | _ => 0
    end.

(** [IC_TX_ABRT_SOURCE] reads [reason] at its first load only (the
    register clears when read). *)
Definition nack_once (reason : Z) : device :=
  fun h r =>
    match r with
    | IC_TX_ABRT_SOURCE =>
        if (loads_of IC_TX_ABRT_SOURCE h =? 0)%nat then reason else 0
    | _ => 0
    end.

(** The status registers of both cores hold [banks]. *)
Definition pending (banks : Z -> Z) : device :=
  fun _ r =>
    match r with
    | PROC_INTS _ idx => banks idx
    | _ => 0
    end.

(** Every load of every register returns all ones: the polls of tx never
    see their status bit clear. *)
Definition stuck : device := fun _ _ => 0xffffffff.

(** A byte is always waiting in the receive FIFO: [IC_RXFLR] reads 1 and
    [IC_DATA_CMD] reads [byte]; every other register reads 0. *)
Definition ready (byte : Z) : device :=
  fun _ r =>
    match r with
    | IC_RXFLR => 1
    | IC_DATA_CMD => byte
    | _ => 0
    end.

(** The state [rx] returns the timeout error in, called on [idle] at
    address 0x10 with the [quiet] device. *)
Definition idle_after_rx_timeout : state :=
  mkState (mkI2C I2C0 false) (replicate 48 None) [None; None]
    [Load IC_TX_ABRT_SOURCE 0; Load IC_RXFLR 0; Store IC_DATA_CMD 768;
     Load IC_RXFLR 0; Store IC_ENABLE 1; Store IC_TAR 16; Store IC_ENABLE 0].

(** Pin callback 7 registered on core 0, nothing else. *)
Definition armed : state :=
  mkState (mkI2C I2C0 false) (replicate 48 None) [Some 7%nat; None] [].

(** Status registers with a falling edge (4) pending on pin 5 and a low
    level (1) pending on pin 9. *)
Definition two_pending (idx : Z) : Z :=
  if idx =? 0 then 0x400000 else if idx =? 1 then 0x10 else 0.

(** The state after the loads of the status register of the [n] pins from
    [gpio] on, each returning what [banks] holds. *)
Fixpoint scanned (banks : Z -> Z) (core : Z) (n : nat) (gpio : Z)
    (s : state) : state :=
  match n with
  | O => s
  | S n' =>
      scanned banks core n' (gpio + 1)
        (emit (Load (PROC_INTS core (Z.shiftr gpio 3))
                    (banks (Z.shiftr gpio 3))) s)
  end.

(** ** Predicates on logs (newest event first) *)

(** An access to the command and data FIFO. *)
Definition is_data_cmd (e : event) : bool :=
  match e with
  | Load IC_DATA_CMD _ | Store IC_DATA_CMD _ => true
  | _ => false
  end.

(** A load of the abort source that returned a reason. *)
Definition is_abort (e : event) : bool :=
  match e with
  | Load IC_TX_ABRT_SOURCE v => negb (v =? 0)
  | _ => false
  end.

(** No abort was observed in the log. *)
Fixpoint no_abort (l : log) : bool :=
  match l with
  | [] => true
  | e :: l' => negb (is_abort e) && no_abort l'
  end.

(** The FIFO was not accessed in the log. *)
Fixpoint no_data_cmd (l : log) : bool :=
  match l with
  | [] => true
  | e :: l' => negb (is_data_cmd e) && no_data_cmd l'
  end.

(** No access to the FIFO is newer than an observed abort: below the
    newest access to the FIFO the log holds no abort. *)
Fixpoint stops_at_abort (l : log) : bool :=
  match l with
  | [] => true
  | e :: l' => if is_data_cmd e then no_abort l' else stops_at_abort l'
  end.

(** A valid target address, as the guard of [tx] and [rx] reads it. *)
Definition valid_addr (addr : Z) : bool :=
  negb ((addr >=? 0x80) || isReservedI2CAddr addr).

(** ** Command words and received bytes in a log *)

(** The values stored to [IC_DATA_CMD], newest first. *)
Fixpoint data_cmd_stores (l : log) : list Z :=
  match l with
  | [] => []
  | Store IC_DATA_CMD v :: l' => v :: data_cmd_stores l'
  | _ :: l' => data_cmd_stores l'
  end.

(** The values loaded from [IC_DATA_CMD], newest first. *)
Fixpoint data_cmd_loads (l : log) : list Z :=
  match l with
  | [] => []
  | Load IC_DATA_CMD v :: l' => v :: data_cmd_loads l'
  | _ :: l' => data_cmd_loads l'
  end.

(** The command words of the bytes [data], the first of them at index
    [byteCtr] of a payload of [tlen] bytes, as the loop of [tx] builds
    them: the restart bit on byte 0 when [restart], the stop bit on the
    last byte unless [nostop]. *)
Fixpoint frames_from (c : rp) (restart nostop : bool) (tlen byteCtr : nat)
    (data : list Z) : list Z :=
  match data with
  | [] => []
  | b :: rest =>
      uint32 (data_cmd c (byteCtr =? 0)%nat (byteCtr =? tlen - 1)%nat
                restart nostop (uint8 b))
      :: frames_from c restart nostop tlen (S byteCtr) rest
  end.

Definition frames (c : rp) (restart nostop : bool) (data : list Z) : list Z :=
  frames_from c restart nostop (length data) 0 data.

(** The command words of the [todo] read commands from index [byteCtr]
    of a buffer of [rlen] bytes, as the loop of [rx] builds them. *)
Fixpoint read_frames_from (c : rp) (restart nostop : bool) (rlen byteCtr : nat)
    (todo : nat) : list Z :=
  match todo with
  | O => []
  | S todo' =>
      uint32 (data_cmd c (byteCtr =? 0)%nat (byteCtr =? rlen - 1)%nat
                restart nostop (I2C0_IC_DATA_CMD_CMD c))
      :: read_frames_from c restart nostop rlen (S byteCtr) todo'
  end.

Definition read_frames (c : rp) (restart nostop : bool) (rlen : nat)
    : list Z :=
  read_frames_from c restart nostop rlen 0 rlen.

(** One byte (0x5a) is delivered, then nothing more arrives and the abort
    source reads 8. *)
Definition nack_after_one_byte : device :=
  fun h r =>
    match r with
    | IC_RXFLR => if (loads_of IC_RXFLR h <? 2)%nat then 1 else 0
    | IC_TX_ABRT_SOURCE => 0x8
    | IC_DATA_CMD => 0x5a
    | _ => 0
    end.

(** As [idle], with a transaction left open: restartOnNext is set. *)
Definition idle_open : state :=
  mkState (mkI2C I2C0 true) (replicate 48 None) [None; None] [].

(** * Properties *)

(** ** The monad *)

Lemma bind_Returns {A B} (m : M A) (k : A -> M B) (s : state) (x : B * state) :
  (m ≫= k) s = Returns x ->
  exists a s1, m s = Returns (a, s1) /\ k a s1 = Returns x.
Proof.
  unfold mbind, M_bind. destruct (m s) as [[a s1]| |]; try discriminate.
  intros H. exists a, s1. split; [reflexivity | exact H].
Qed.

Lemma mret_Returns {A} (a b : A) (s s' : state) :
  (mret a : M A) s = Returns (b, s') -> b = a /\ s' = s.
Proof. unfold mret, M_ret. intros H. injection H as <- <-. split; reflexivity. Qed.

Lemma bind_step {A B} (m : M A) (k : A -> M B) (s s1 : state) (a : A) :
  m s = Returns (a, s1) -> (m ≫= k) s = k a s1.
Proof. unfold mbind, M_bind. intros ->. reflexivity. Qed.

Lemma bind_Spins {A B} (m : M A) (k : A -> M B) (s : state) :
  m s = Spins -> (m ≫= k) s = Spins.
Proof. unfold mbind, M_bind. intros ->. reflexivity. Qed.

Ltac inv_bind H :=
  let a := fresh "a" in
  let s1 := fresh "s" in
  let H1 := fresh "H" in
  apply bind_Returns in H; destruct H as (a & s1 & H1 & H).

Tactic Notation "bind_inv" hyp(H) "as" ident(a) ident(s1) ident(H1) :=
  apply bind_Returns in H; destruct H as (a & s1 & H1 & H).

Tactic Notation "ret_inv" hyp(H) "as" ident(He) ident(Hs) :=
  apply mret_Returns in H; destruct H as [He Hs].

Ltac ret_absurd H :=
  let He := fresh in
  apply mret_Returns in H; destruct H as [He _]; discriminate He.

Ltac norm_app :=
  repeat (rewrite <- app_assoc || rewrite <- app_comm_cons).

(** ** Baud rate *)

Section BaudRate.

Variable c : rp.
Variable dev : device.

Lemma lcnt_range (br : Z) : 0 <= lcnt br < 2 ^ 32.
Proof.
  unfold lcnt, uint32.
  pose proof (Z.mod_pos_bound (period br * 3) (2 ^ 32) eq_refl) as B.
  split.
  - apply Z.div_pos; lia.
  - apply Z.div_lt_upper_bound; lia.
Qed.

Lemma Configure_ends_in_SetBaudrate (fuel : nat) (br : Z) (s s' : state)
    (r : option error) :
  Configure c dev fuel br s = Returns (r, s') ->
  exists s1, SetBaudrate c dev br s1 = Returns (r, s').
Proof.
  unfold Configure, init. intros H.
  do 7 inv_bind H. eexists. exact H.
Qed.

(** C1: the code returns errInvalidI2CBaudrate, with nothing stored,
    whenever the low and high counts are within 8 and the register
    maximum and the hold count does NOT exceed low - 2: the comparison
    of the hold count is the reverse of the one claimed.  Configure
    then cannot return nil either. *)
Theorem SetBaudrate_rejects_hold_within_limit :
  forall (fuel : nat) (br : Z) (s : state),
    0 < br ->
    8 <= lcnt br <= I2C0_IC_FS_SCL_LCNT_IC_FS_SCL_LCNT_Msk c ->
    8 <= hcnt br <= I2C0_IC_FS_SCL_HCNT_IC_FS_SCL_HCNT_Msk c ->
    sdaTxHoldCnt br <= lcnt br - 2 ->
    SetBaudrate c dev br s = Returns (Some errInvalidI2CBaudrate, s)
    /\ forall s', Configure c dev fuel br s <> Returns (None, s').
Proof.
  intros fuel br s Hbr Hl Hh Hhold.
  assert (E : forall s0, SetBaudrate c dev br s0
                         = Returns (Some errInvalidI2CBaudrate, s0)).
  { intros s0. unfold SetBaudrate.
    replace (br =? 0) with false by (symmetry; apply Z.eqb_neq; lia).
    replace (hcnt br >? _) with false
      by (symmetry; rewrite Z.gtb_ltb; apply Z.ltb_ge; lia).
    replace (hcnt br <? 8) with false by (symmetry; apply Z.ltb_ge; lia).
    replace (lcnt br >? _) with false
      by (symmetry; rewrite Z.gtb_ltb; apply Z.ltb_ge; lia).
    replace (lcnt br <? 8) with false by (symmetry; apply Z.ltb_ge; lia).
    cbn [orb].
    pose proof (lcnt_range br) as B.
    replace (uint32 (lcnt br - 2)) with (lcnt br - 2)
      by (unfold uint32; symmetry; apply Z.mod_small; lia).
    replace (sdaTxHoldCnt br <=? lcnt br - 2) with true
      by (symmetry; apply Z.leb_le; lia).
    reflexivity. }
  split; [apply E|].
  intros s' H. apply Configure_ends_in_SetBaudrate in H as [s1 H].
  rewrite E in H. discriminate H.
Qed.

(** When SetBaudrate returns nil, the last store to IC_ENABLE is 1. *)
Lemma SetBaudrate_success_enables (br : Z) (s s' : state) :
  SetBaudrate c dev br s = Returns (None, s') ->
  last_store IC_ENABLE (io s') = Some 1.
Proof.
  unfold SetBaudrate. intros H.
  destruct (br =? 0); [discriminate H|].
  destruct (_ || _); [discriminate H|].
  destruct (_ <=? _); [discriminate H|].
  cbv [mbind M_bind enable disable Set_ ReplaceBits Get emit mret M_ret] in H.
  injection H as <-. reflexivity.
Qed.

Lemma period_below_1MHz (br : Z) :
  0 < br < 1000000 -> 125 <= period br <= 125500000.
Proof.
  intros H. unfold period, uint32, MHz. change (2 ^ 32) with 4294967296.
  assert (0 <= br / 2 < 500000)
    by (split; [apply Z.div_pos; lia | apply Z.div_lt_upper_bound; lia]).
  rewrite (Z.mod_small (125 * 1000000)) by lia.
  rewrite Z.mod_small by lia.
  split.
  - apply Z.div_le_lower_bound; lia.
  - apply Z.div_le_upper_bound; lia.
Qed.

(** X3: no frequency below 1 MHz is accepted, standard mode (100 kHz)
    and fast mode (400 kHz) included: the low count is at least 75 there
    and the hold count is 38. *)
Lemma SetBaudrate_below_1MHz_rejected (br : Z) (s : state) :
  0 < br < 1000000 ->
  SetBaudrate c dev br s = Returns (Some errInvalidI2CBaudrate, s).
Proof.
  intros H. pose proof (period_below_1MHz br H) as P.
  assert (L : 75 <= lcnt br < 2 ^ 32).
  { unfold lcnt, uint32. change (2 ^ 32) with 4294967296.
    rewrite Z.mod_small by lia.
    split; [apply Z.div_le_lower_bound; lia
           | apply Z.div_lt_upper_bound; lia]. }
  unfold SetBaudrate.
  replace (br =? 0) with false by (symmetry; apply Z.eqb_neq; lia).
  destruct (_ || _); [reflexivity|].
  replace (uint32 (lcnt br - 2)) with (lcnt br - 2)
    by (unfold uint32; symmetry; apply Z.mod_small; lia).
  replace (sdaTxHoldCnt br) with 38.
  2:{ unfold sdaTxHoldCnt. replace (br >=? 1000000) with false; [reflexivity|].
      symmetry. rewrite Z.geb_leb. apply Z.leb_gt. lia. }
  replace (38 <=? lcnt br - 2) with true by (symmetry; apply Z.leb_le; lia).
  reflexivity.
Qed.

End BaudRate.

(** C1 at 100 kHz: period 1250, low count 750, high count 500, hold
    count 38. *)
Lemma SetBaudrate_rejects_hold_within_limit_witness :
  SetBaudrate rp2040 quiet 100000 idle
    = Returns (Some errInvalidI2CBaudrate, idle)
  /\ forall s', Configure rp2040 quiet 1 100000 idle <> Returns (None, s').
Proof.
  apply (SetBaudrate_rejects_hold_within_limit rp2040 quiet 1 100000 idle);
    vm_compute; intuition discriminate.
Defined.

(** ** Address guard and empty payload *)

Section Guards.

Variable c : rp.
Variable dev : device.

(** C8: for an invalid 7-bit target address (at least 0x80, or the four
    bits under 0x78 all clear or all set) tx and rx return
    errInvalidTgtAddr at once: the state is the one of the call, so no
    register is loaded or stored and restartOnNext is unchanged. *)
Theorem invalid_address_rejected :
  forall (fuel : nat) (addr : Z) (data buf : list Z) (nostop : bool)
         (timeout : Z) (s : state),
    addr >= 0x80 \/ Z.land addr 0x78 = 0 \/ Z.land addr 0x78 = 0x78 ->
    tx c dev fuel addr data nostop timeout s
      = Returns (Some errInvalidTgtAddr, s)
    /\ rx c dev fuel addr buf nostop timeout s
      = Returns ((Some errInvalidTgtAddr, buf), s).
Proof.
  intros fuel addr data buf nostop timeout s H.
  assert (G : (addr >=? 0x80) || isReservedI2CAddr addr = true).
  { unfold isReservedI2CAddr.
    destruct H as [H | [H | H]].
    - apply orb_true_iff. left. apply Z.geb_le. lia.
    - rewrite H. rewrite orb_true_r. reflexivity.
    - rewrite H. rewrite !orb_true_r. reflexivity. }
  unfold tx, rx. rewrite G. split; reflexivity.
Qed.

(** C9, amended: for a valid target address, tx with no bytes and rx
    with an empty buffer return nil at once, in the state of the call
    (nothing loaded or stored, restartOnNext unchanged). *)
Theorem empty_transfer_is_noop :
  forall (fuel : nat) (addr : Z) (nostop : bool) (timeout : Z) (s : state),
    valid_addr addr = true ->
    tx c dev fuel addr [] nostop timeout s = Returns (None, s)
    /\ rx c dev fuel addr [] nostop timeout s = Returns ((None, []), s).
Proof.
  intros fuel addr nostop timeout s H.
  unfold valid_addr in H. apply negb_true_iff in H.
  unfold tx, rx. rewrite H. split; reflexivity.
Qed.

End Guards.

(** C8 at address 0x03 (reserved) with a two-byte payload. *)
Lemma invalid_address_rejected_witness :
  tx rp2040 quiet 1 0x03 [1; 2] true 7 idle
    = Returns (Some errInvalidTgtAddr, idle)
  /\ rx rp2040 quiet 1 0x03 [0] true 7 idle
    = Returns ((Some errInvalidTgtAddr, [0]), idle).
Proof.
  apply (invalid_address_rejected rp2040 quiet 1 0x03 [1; 2] [0] true 7 idle).
  right. left. reflexivity.
Defined.

(** C9 at address 0x10. *)
Lemma empty_transfer_is_noop_witness :
  tx rp2040 quiet 1 0x10 [] true 0 idle = Returns (None, idle)
  /\ rx rp2040 quiet 1 0x10 [] true 0 idle = Returns ((None, []), idle).
Proof.
  apply (empty_transfer_is_noop rp2040 quiet 1 0x10 true 0 idle).
  reflexivity.
Defined.

(** C9 as stated, for every target address, fails at the reserved address
    0: the empty write is not a success but errInvalidTgtAddr. *)
Lemma empty_transfer_reserved_address :
  ~ (forall (addr : Z) (s : state),
       tx rp2040 quiet 1 addr [] false 0 s = Returns (None, s)
       /\ rx rp2040 quiet 1 addr [] false 0 s = Returns ((None, []), s)).
Proof.
  intros H. destruct (H 0 idle) as [H1 _]. discriminate H1.
Qed.

(** ** The loops of tx and rx *)

Section Loops.

Variable c : rp.
Variable dev : device.

Lemma put_restartOnNext_self b s u s' :
  put_restartOnNext b s = Returns (u, s') -> restartOnNext (self s') = b.
Proof. unfold put_restartOnNext. intros H. injection H as _ <-. reflexivity. Qed.

Lemma wait_raw_intr_stat_timeout fuel mask tc nostop :
  forall s s',
    wait_raw_intr_stat dev fuel mask tc nostop s = Returns (true, s') ->
    restartOnNext (self s') = nostop.
Proof.
  induction fuel as [|fuel IH]; intros s s' H; cbn [wait_raw_intr_stat] in H.
  - discriminate H.
  - bind_inv H as v s1 Hv. destruct (negb _).
    + destruct tc.
      * bind_inv H as u s2 Hp. ret_inv H as He Hs; subst. eapply put_restartOnNext_self; eauto.
      * eapply IH; eauto.
    + ret_absurd H.
Qed.

Lemma tx_loop_timeout fuel data nostop tc :
  forall todo byteCtr abort abortReason s s',
    tx_loop c dev fuel data nostop tc todo byteCtr abort abortReason s
      = Returns (TimedOut, s') ->
    restartOnNext (self s') = nostop.
Proof.
  induction todo as [|todo IH]; intros byteCtr abort abortReason s s' H;
    cbn [tx_loop] in H.
  - ret_absurd H.
  - destruct (data !! byteCtr) as [b|]; [|discriminate H].
    bind_inv H as restart s1 H1. bind_inv H as u2 s2 H2.
    bind_inv H as t3 s3 H3.
    destruct t3.
    { ret_inv H as He Hs; subst. eapply wait_raw_intr_stat_timeout; eauto. }
    bind_inv H as reason s4 H4. bind_inv H as abort' s5 H5.
    bind_inv H as t6 s6 H6.
    destruct t6.
    { ret_inv H as He Hs; subst.
      destruct (abort' || _).
      - bind_inv H6 as t7 s7 H7. destruct t7.
        + ret_inv H6 as He6 Hs6; subst. eapply wait_raw_intr_stat_timeout; eauto.
        + bind_inv H6 as v8 s8 H8. ret_absurd H6.
      - ret_absurd H6. }
    eapply IH; eauto.
Qed.

Lemma tx_loop_byteCtr fuel data nostop tc :
  forall todo byteCtr abort abortReason s s' abort' reason' byteCtr',
    tx_loop c dev fuel data nostop tc todo byteCtr abort abortReason s
      = Returns (LoopDone abort' reason' byteCtr', s') ->
    byteCtr' = (byteCtr + todo)%nat.
Proof.
  induction todo as [|todo IH];
    intros byteCtr abort abortReason s s' abort' reason' byteCtr' H;
    cbn [tx_loop] in H.
  - ret_inv H as He Hs. injection He as -> -> ->. lia.
  - destruct (data !! byteCtr) as [b|]; [|discriminate H].
    bind_inv H as restart s1 H1. bind_inv H as u2 s2 H2.
    bind_inv H as t3 s3 H3.
    destruct t3; [ret_absurd H|].
    bind_inv H as reason s4 H4. bind_inv H as abort2 s5 H5.
    bind_inv H as t6 s6 H6.
    destruct t6; [ret_absurd H|].
    apply IH in H. lia.
Qed.

Lemma wait_readAvailable_timeout fuel tc nostop :
  forall abort abortReason s s',
    wait_readAvailable dev fuel tc nostop abort abortReason s
      = Returns (PollTimedOut, s') ->
    restartOnNext (self s') = nostop.
Proof.
  induction fuel as [|fuel IH]; intros abort abortReason s s' H;
    cbn [wait_readAvailable] in H.
  - discriminate H.
  - bind_inv H as n s1 H1. destruct ((n =? 0) && negb abort).
    + bind_inv H as reason s2 H2. destruct tc.
      * bind_inv H as u s3 H3. ret_inv H as He Hs; subst. eapply put_restartOnNext_self; eauto.
      * eapply IH; eauto.
    + ret_absurd H.
Qed.

Lemma rx_loop_timeout fuel nostop tc :
  forall todo byteCtr abort abortReason buf s buf' s',
    rx_loop c dev fuel nostop tc todo byteCtr abort abortReason buf s
      = Returns ((TimedOut, buf'), s') ->
    restartOnNext (self s') = nostop.
Proof.
  induction todo as [|todo IH];
    intros byteCtr abort abortReason buf s buf' s' H; cbn [rx_loop] in H.
  - ret_absurd H.
  - bind_inv H as u1 s1 H1. bind_inv H as restart s2 H2.
    bind_inv H as u3 s3 H3. bind_inv H as p s4 H4.
    destruct p as [|abort2 reason2].
    + ret_inv H as He Hs; subst. eapply wait_readAvailable_timeout; eauto.
    + destruct abort2; [ret_absurd H|].
      bind_inv H as v s5 H5.
      destruct (byteCtr <? length buf)%nat; [|discriminate H].
      eapply IH; eauto.
Qed.

End Loops.

Section Transfers.

Variable c : rp.
Variable dev : device.

Lemma valid_addr_guard (addr : Z) :
  valid_addr addr = true ->
  (addr >=? 0x80) || isReservedI2CAddr addr = false.
Proof. unfold valid_addr. intros H. apply negb_true_iff in H. exact H. Qed.

(** ** restartOnNext at the end of a transfer *)

(** C4, amended: a tx or rx call with a valid target address and a
    non-empty payload that returns (nil, an abort error or the timeout
    error) leaves restartOnNext equal to its noStop argument.  The two
    early returns (invalid address, empty payload) leave the field as it
    was. *)
Theorem transfer_sets_restartOnNext :
  forall (fuel : nat) (addr : Z) (data buf : list Z) (nostop : bool)
         (timeout : Z) (s : state),
    valid_addr addr = true ->
    (forall r s', data <> [] ->
       tx c dev fuel addr data nostop timeout s = Returns (r, s') ->
       restartOnNext (self s') = nostop)
    /\ (forall r s', buf <> [] ->
       rx c dev fuel addr buf nostop timeout s = Returns (r, s') ->
       restartOnNext (self s') = nostop).
Proof.
  intros fuel addr data buf nostop timeout s Hv.
  apply valid_addr_guard in Hv. split.
  - intros r s' Hne H. unfold tx in H. rewrite Hv in H.
    destruct data as [|b data]; [congruence|]. cbn [length Nat.eqb] in H.
    bind_inv H as u1 s1 H1. bind_inv H as u2 s2 H2. bind_inv H as u3 s3 H3.
    bind_inv H as e s4 H4. destruct e as [|abort reason byteCtr].
    + ret_inv H as He Hs; subst. eapply tx_loop_timeout; eauto.
    + bind_inv H as u5 s5 H5. ret_inv H as He Hs; subst.
      eapply put_restartOnNext_self; eauto.
  - intros r s' Hne H. unfold rx in H. rewrite Hv in H.
    destruct buf as [|b buf]; [congruence|]. cbn [length Nat.eqb] in H.
    bind_inv H as u1 s1 H1. bind_inv H as u2 s2 H2. bind_inv H as u3 s3 H3.
    bind_inv H as e s4 H4. destruct e as [[|abort reason byteCtr] buf'].
    + ret_inv H as He Hs; subst. eapply rx_loop_timeout; eauto.
    + bind_inv H as u5 s5 H5. ret_inv H as He Hs; subst.
      eapply put_restartOnNext_self; eauto.
Qed.

(** ** The index carried by the data error of tx *)

(** C7: the data error that tx returns carries the length of the payload,
    whatever the byte at which the abort was observed: the byte loop is
    never left early, so the counter has run to the end when the abort is
    classified. *)
Theorem tx_data_error_carries_length :
  forall (fuel : nat) (addr : Z) (data : list Z) (nostop : bool)
         (timeout k : Z) (s s' : state),
    tx c dev fuel addr data nostop timeout s
      = Returns (Some (i2cBuffError k), s') ->
    k = Z.of_nat (length data).
Proof.
  intros fuel addr data nostop timeout k s s' H. unfold tx in H.
  destruct ((addr >=? 0x80) || isReservedI2CAddr addr).
  { ret_absurd H. }
  destruct (length data =? 0)%nat.
  { ret_absurd H. }
  bind_inv H as u1 s1 H1. bind_inv H as u2 s2 H2. bind_inv H as u3 s3 H3.
  bind_inv H as e s4 H4. destruct e as [|abort reason byteCtr].
  { ret_absurd H. }
  bind_inv H as u5 s5 H5. ret_inv H as He Hs.
  apply tx_loop_byteCtr in H4. subst byteCtr.
  destruct abort; [|discriminate He].
  unfold tx_classify, makeI2CBuffError in He.
  destruct (_ || _); [discriminate He|].
  destruct (negb (Z.land _ _ =? 0)); injection He as ->; reflexivity.
Qed.

(** ** Tx and the 16-bit address *)

Lemma tx_valid_addr_error (fuel : nat) (addr : Z) (data : list Z)
    (nostop : bool) (timeout : Z) (s s' : state) (e : option error) :
  valid_addr addr = true ->
  tx c dev fuel addr data nostop timeout s = Returns (e, s') ->
  e <> Some errInvalidTgtAddr.
Proof.
  intros Hv H. apply valid_addr_guard in Hv. unfold tx in H. rewrite Hv in H.
  clear Hv.
  destruct (length data =? 0)%nat.
  { ret_inv H as He Hs. subst. discriminate. }
  bind_inv H as u1 s1 H1. bind_inv H as u2 s2 H2. bind_inv H as u3 s3 H3.
  bind_inv H as x s4 H4. destruct x as [|abort reason byteCtr].
  { ret_inv H as He Hs. subst. discriminate. }
  bind_inv H as u5 s5 H5. ret_inv H as He Hs. subst e.
  destruct abort; [|discriminate].
  unfold tx_classify, makeI2CBuffError.
  destruct (_ || _); [discriminate|].
  destruct (negb (Z.land _ _ =? 0)); discriminate.
Qed.

Lemma rx_valid_addr_error (fuel : nat) (addr : Z) (buf buf' : list Z)
    (nostop : bool) (deadline : Z) (s s' : state) (e : option error) :
  valid_addr addr = true ->
  rx c dev fuel addr buf nostop deadline s = Returns ((e, buf'), s') ->
  e <> Some errInvalidTgtAddr.
Proof.
  intros Hv H. apply valid_addr_guard in Hv. unfold rx in H. rewrite Hv in H.
  clear Hv.
  destruct (length buf =? 0)%nat.
  { ret_inv H as He Hs. injection He as -> ->. discriminate. }
  bind_inv H as u1 s1 H1. bind_inv H as u2 s2 H2. bind_inv H as u3 s3 H3.
  bind_inv H as x s4 H4. destruct x as [[|abort reason byteCtr] b4].
  { ret_inv H as He Hs. injection He as -> ->. discriminate. }
  bind_inv H as u5 s5 H5. ret_inv H as He Hs. injection He as -> ->.
  destruct abort; [|discriminate].
  unfold rx_classify, makeI2CBuffError.
  destruct (_ || _); discriminate.
Qed.

(** C10: Tx converts the 16-bit address to uint8 before anything else, so
    Tx at a and Tx at a mod 256 are the same call; and when the low byte
    is a valid address, Tx does not return errInvalidTgtAddr, whatever
    the upper byte. *)
Theorem Tx_uses_low_byte :
  forall (fuel : nat) (a : Z) (w r : list Z) (s : state),
    Tx c dev fuel a w r s = Tx c dev fuel (a mod 256) w r s
    /\ (valid_addr (a mod 256) = true ->
        forall e buf s',
          Tx c dev fuel a w r s = Returns ((e, buf), s') ->
          e <> Some errInvalidTgtAddr).
Proof.
  intros fuel a w r s. split.
  - unfold Tx, uint8. change (2 ^ 8) with 256.
    rewrite Z.mod_mod by lia. reflexivity.
  - intros Hv e buf s' H. unfold Tx, uint8 in H. change (2 ^ 8) with 256 in H.
    bind_inv H as err s1 H1.
    assert (E : err <> Some errInvalidTgtAddr).
    { destruct (0 <? length w)%nat.
      - eapply tx_valid_addr_error; eauto.
      - ret_inv H1 as He Hs. subst. discriminate. }
    destruct err as [e0|].
    + ret_inv H as He Hs. injection He as -> ->. exact E.
    + destruct (0 <? length r)%nat.
      * eapply rx_valid_addr_error; eauto.
      * ret_inv H as He Hs. injection He as -> ->. discriminate.
Qed.

End Transfers.

(** C4 as stated, on every exit path, fails on the empty write: it
    returns nil and restartOnNext is still false after a call with
    noStop true. *)
Lemma empty_tx_keeps_restartOnNext :
  ~ (forall (addr : Z) (data : list Z) (nostop : bool) (timeout : Z)
            (s : state) r s',
       tx rp2040 quiet 1 addr data nostop timeout s = Returns (r, s') ->
       restartOnNext (self s') = nostop).
Proof.
  intros H.
  specialize (H 0x10 [] true 0 idle None idle eq_refl).
  discriminate H.
Qed.

(** C4 on a one-byte write and a one-byte read with noStop true. *)
Lemma transfer_sets_restartOnNext_witness :
  exists s1 s2,
    tx rp2040 (ready 0x5a) 1 0x10 [0xaa] true 5 idle = Returns (None, s1)
    /\ restartOnNext (self s1) = true
    /\ rx rp2040 (ready 0x5a) 1 0x10 [0] true 5 idle
        = Returns ((None, [0x5a]), s2)
    /\ restartOnNext (self s2) = true.
Proof.
  destruct (transfer_sets_restartOnNext rp2040 (ready 0x5a) 1 0x10
              [0xaa] [0] true 5 idle eq_refl) as [Ht Hr].
  eexists _, _.
  split; [vm_compute; reflexivity|].
  split; [eapply Ht; [discriminate | vm_compute; reflexivity]|].
  split; [vm_compute; reflexivity|].
  eapply Hr; [discriminate | vm_compute; reflexivity].
Defined.

(** C7 on a three-byte write whose second byte (index 1) is not
    acknowledged: the error carries 3. *)
Lemma tx_data_error_carries_length_witness :
  exists s',
    tx rp2040 (nack_from 1 0x8) 1 0x10 [1; 2; 3] false 0 idle
      = Returns (Some (i2cBuffError 3), s')
    /\ 3 = Z.of_nat (length [1; 2; 3]).
Proof.
  eexists. split; [vm_compute; reflexivity|].
  eapply (tx_data_error_carries_length rp2040 (nack_from 1 0x8) 1 0x10
            [1; 2; 3] false 0 3 idle).
  vm_compute; reflexivity.
Defined.

(** C10 at the 16-bit address 0x110, whose low byte is 0x10. *)
Lemma Tx_uses_low_byte_witness :
  Tx rp2040 quiet 1 0x110 [1] [] idle = Tx rp2040 quiet 1 0x10 [1] [] idle
  /\ exists s', Tx rp2040 quiet 1 0x110 [1] [] idle = Returns ((None, []), s')
              /\ (None : option error) <> Some errInvalidTgtAddr.
Proof.
  destruct (Tx_uses_low_byte rp2040 quiet 1 0x110 [1] [] idle) as [E V].
  split; [exact E|].
  eexists. split; [vm_compute; reflexivity|].
  eapply V; [reflexivity | vm_compute; reflexivity].
Defined.

(** ** The write loop after an abort *)

(** C2: a two-byte write whose first byte is not acknowledged.  The
    abort source reads 8 after the first byte, and the second byte is
    still stored to IC_DATA_CMD (699 is the stop bit with 0xbb).  The
    log is in the order of the accesses. *)
Theorem tx_submits_after_abort :
  exists s',
    tx rp2040 (nack_once 0x8) 1 0x10 [0xaa; 0xbb] false 0 idle
      = Returns (Some errI2CGeneric, s')
    /\ rev (io s')
       = [Store IC_ENABLE 0; Store IC_TAR 16; Store IC_ENABLE 1;
          Store IC_DATA_CMD 170; Load IC_RAW_INTR_STAT 0;
          Load IC_TX_ABRT_SOURCE 8; Load IC_CLR_TX_ABRT 0;
          Load IC_RAW_INTR_STAT 0; Load IC_CLR_STOP_DET 0;
          Store IC_DATA_CMD 699; Load IC_RAW_INTR_STAT 0;
          Load IC_TX_ABRT_SOURCE 0; Load IC_RAW_INTR_STAT 0;
          Load IC_CLR_STOP_DET 0]
    /\ stores_to IC_DATA_CMD (io s') = 2%nat
    /\ stops_at_abort (io s') = false.
Proof.
  eexists. split; [vm_compute; reflexivity|].
  repeat split; vm_compute; reflexivity.
Qed.

(** ** Stores to the FIFO in tx *)

Section Submits.

Variable c : rp.
Variable dev : device.

Lemma Get_stores (r r' : reg) (s s' : state) (v : Z) :
  Get dev r s = Returns (v, s') -> stores_to r' (io s') = stores_to r' (io s).
Proof. unfold Get. intros H. injection H as _ <-. reflexivity. Qed.

Lemma wait_raw_intr_stat_stores (r : reg) (fuel : nat) (mask : Z)
    (nostop : bool) :
  forall (s s' : state) (t : bool),
    wait_raw_intr_stat dev fuel mask false nostop s = Returns (t, s') ->
    t = false /\ stores_to r (io s') = stores_to r (io s).
Proof.
  induction fuel as [|fuel IH]; intros s s' t H; cbn [wait_raw_intr_stat] in H.
  - discriminate H.
  - bind_inv H as v s1 H1. apply (Get_stores _ r) in H1.
    destruct (negb _).
    + apply IH in H. destruct H as [-> E]. split; [reflexivity | congruence].
    + ret_inv H as He Hs. subst. split; [reflexivity | exact H1].
Qed.

Lemma tx_loop_stores (fuel : nat) (data : list Z) (nostop : bool) :
  forall (todo byteCtr : nat) (abort : bool) (abortReason : Z)
         (s s' : state) (e : loop_exit),
    tx_loop c dev fuel data nostop false todo byteCtr abort abortReason s
      = Returns (e, s') ->
    stores_to IC_DATA_CMD (io s') = (stores_to IC_DATA_CMD (io s) + todo)%nat.
Proof.
  induction todo as [|todo IH]; intros byteCtr abort abortReason s s' e H;
    cbn [tx_loop] in H.
  - ret_inv H as He Hs. subst. lia.
  - destruct (data !! byteCtr) as [b|]; [|discriminate H].
    bind_inv H as restart s1 H1. bind_inv H as u2 s2 H2.
    bind_inv H as t3 s3 H3.
    injection H1 as _ <-. injection H2 as _ <-.
    apply (wait_raw_intr_stat_stores IC_DATA_CMD) in H3 as [-> E3].
    bind_inv H as reason s4 H4. apply (Get_stores _ IC_DATA_CMD) in H4.
    bind_inv H as abort' s5 H5. bind_inv H as t6 s6 H6.
    assert (E5 : stores_to IC_DATA_CMD (io s5)
                 = stores_to IC_DATA_CMD (io s4)).
    { destruct (negb (reason =? 0)).
      - bind_inv H5 as v s7 H7. ret_inv H5 as He Hs. subst.
        eapply Get_stores; eauto.
      - ret_inv H5 as He Hs. subst. reflexivity. }
    assert (E6 : t6 = false
                 /\ stores_to IC_DATA_CMD (io s6)
                    = stores_to IC_DATA_CMD (io s5)).
    { destruct (abort' || _).
      - bind_inv H6 as t7 s7 H7.
        apply (wait_raw_intr_stat_stores IC_DATA_CMD) in H7 as [-> E7].
        bind_inv H6 as v s8 H8. ret_inv H6 as He Hs. subst.
        apply (Get_stores _ IC_DATA_CMD) in H8.
        split; [reflexivity | congruence].
      - ret_inv H6 as He Hs. subst. split; reflexivity. }
    destruct E6 as [-> E6].
    apply IH in H. rewrite H, E6, E5, H4, E3. cbn. lia.
Qed.

(** With no timeout passed, a tx call that returns has stored every byte
    of the payload to IC_DATA_CMD, whatever the abort source returned on
    the way. *)
Theorem tx_submits_every_byte :
  forall (fuel : nat) (addr : Z) (data : list Z) (nostop : bool)
         (s s' : state) (r : option error),
    valid_addr addr = true ->
    tx c dev fuel addr data nostop 0 s = Returns (r, s') ->
    stores_to IC_DATA_CMD (io s')
    = (stores_to IC_DATA_CMD (io s) + length data)%nat.
Proof.
  intros fuel addr data nostop s s' r Hv H.
  unfold valid_addr in Hv. apply negb_true_iff in Hv.
  unfold tx in H. rewrite Hv in H. clear Hv.
  destruct (length data =? 0)%nat eqn:L.
  { ret_inv H as He Hs. subst. apply Nat.eqb_eq in L. lia. }
  bind_inv H as u1 s1 H1. bind_inv H as u2 s2 H2. bind_inv H as u3 s3 H3.
  injection H1 as _ <-. injection H2 as _ <-. injection H3 as _ <-.
  bind_inv H as e s4 H4.
  change (negb (0 =? 0)) with false in H4.
  apply tx_loop_stores in H4. cbn in H4.
  destruct e as [|abort reason byteCtr].
  - ret_inv H as He Hs. subst. exact H4.
  - bind_inv H as u5 s5 H5. injection H5 as _ <-.
    ret_inv H as He Hs. subst. exact H4.
Qed.

End Submits.

(** ** The read loop after an abort *)

Lemma no_abort_app (a b : log) : no_abort (a ++ b) = no_abort a && no_abort b.
Proof.
  induction a as [|e a IH]; [reflexivity|].
  cbn [app no_abort]. rewrite IH. apply andb_assoc.
Qed.

Lemma no_abort_stops (b : log) : no_abort b = true -> stops_at_abort b = true.
Proof.
  induction b as [|e b IH]; [reflexivity|].
  cbn [no_abort stops_at_abort]. intros H. apply andb_true_iff in H as [_ H].
  destruct (is_data_cmd e); [exact H | apply IH, H].
Qed.

Lemma stops_at_abort_app (a b : log) :
  no_abort b = true -> stops_at_abort a = true -> stops_at_abort (a ++ b) = true.
Proof.
  intros Hb. induction a as [|e a IH]; cbn [app stops_at_abort].
  - intros _. apply no_abort_stops, Hb.
  - destruct (is_data_cmd e).
    + intros H. rewrite no_abort_app, H, Hb. reflexivity.
    + exact IH.
Qed.

Lemma stops_at_abort_skip (a b : log) :
  no_data_cmd a = true -> stops_at_abort (a ++ b) = stops_at_abort b.
Proof.
  induction a as [|e a IH]; [reflexivity|].
  cbn [app no_data_cmd stops_at_abort]. intros H.
  apply andb_true_iff in H as [H1 H2]. apply negb_true_iff in H1.
  rewrite H1. apply IH, H2.
Qed.

Lemma no_data_cmd_app (a b : log) :
  no_data_cmd (a ++ b) = no_data_cmd a && no_data_cmd b.
Proof.
  induction a as [|e a IH]; [reflexivity|].
  cbn [app no_data_cmd]. rewrite IH. apply andb_assoc.
Qed.

Section Reads.

Variable c : rp.
Variable dev : device.

Lemma Get_io (r : reg) (s s' : state) (v : Z) :
  Get dev r s = Returns (v, s') -> io s' = Load r v :: io s.
Proof. unfold Get. intros H. injection H as <- <-. reflexivity. Qed.

Lemma wait_writeAvailable_io (fuel : nat) :
  forall (s s' : state) (u : unit),
    wait_writeAvailable c dev fuel s = Returns (u, s') ->
    exists l, io s' = l ++ io s /\ no_data_cmd l = true /\ no_abort l = true.
Proof.
  induction fuel as [|fuel IH]; intros s s' u H; cbn [wait_writeAvailable] in H.
  - discriminate H.
  - bind_inv H as n s1 H1. unfold writeAvailable in H1.
    bind_inv H1 as v s2 H2. ret_inv H1 as He Hs. subst s1.
    apply Get_io in H2.
    assert (exists l, io s' = l ++ io s2
                      /\ no_data_cmd l = true /\ no_abort l = true)
      as (l & E & D & A).
    { destruct (n =? 0).
      - eapply IH; eauto.
      - ret_inv H as He' Hs. subst. exists []. repeat split. }
    exists (l ++ [Load IC_RXFLR v]). rewrite E, H2, <- app_assoc.
    split; [reflexivity|]. split.
    + rewrite no_data_cmd_app, D. reflexivity.
    + rewrite no_abort_app, A. reflexivity.
Qed.

Lemma wait_readAvailable_io (fuel : nat) (tc nostop : bool) :
  forall (abort : bool) (reason : Z) (s s' : state) (p : poll_exit),
    wait_readAvailable dev fuel tc nostop abort reason s = Returns (p, s') ->
    exists l, io s' = l ++ io s
              /\ no_data_cmd l = true
              /\ (forall reason', p = PollDone false reason' ->
                  abort = false /\ no_abort l = true).
Proof.
  induction fuel as [|fuel IH]; intros abort reason s s' p H;
    cbn [wait_readAvailable] in H.
  - discriminate H.
  - bind_inv H as n s1 H1. apply Get_io in H1.
    destruct ((n =? 0) && negb abort).
    + bind_inv H as v s2 H2. apply Get_io in H2. destruct tc.
      * bind_inv H as u s3 H3. injection H3 as _ <-.
        ret_inv H as He Hs. subst.
        exists [Load IC_TX_ABRT_SOURCE v; Load IC_RXFLR n].
        cbn [io set_restartOnNext]. rewrite H2, H1.
        split; [reflexivity|]. split; [reflexivity|]. discriminate.
      * apply IH in H as (l & E & D & A).
        exists (l ++ [Load IC_TX_ABRT_SOURCE v; Load IC_RXFLR n]).
        rewrite E, H2, H1, <- app_assoc. split; [reflexivity|]. split.
        { rewrite no_data_cmd_app, D. reflexivity. }
        intros reason' Hp. destruct (A reason' Hp) as [A1 A2].
        destruct (negb (v =? 0)) eqn:V; [discriminate A1|].
        split; [exact A1|].
        rewrite no_abort_app, A2. cbn. rewrite V. reflexivity.
    + ret_inv H as He Hs. subst.
      exists [Load IC_RXFLR n]. rewrite H1.
      split; [reflexivity|]. split; [reflexivity|].
      intros reason' Hp. injection Hp as -> _. split; reflexivity.
Qed.

Lemma rx_loop_io (fuel : nat) (nostop tc : bool) :
  forall (todo byteCtr : nat) (reason : Z) (buf : list Z) (s s' : state)
         (e : loop_exit * list Z),
    rx_loop c dev fuel nostop tc todo byteCtr false reason buf s
      = Returns (e, s') ->
    exists l, io s' = l ++ io s /\ stops_at_abort l = true.
Proof.
  induction todo as [|todo IH]; intros byteCtr reason buf s s' e H;
    cbn [rx_loop] in H.
  - ret_inv H as He Hs. subst. exists []. split; reflexivity.
  - bind_inv H as u1 s1 H1.
    apply wait_writeAvailable_io in H1 as (l1 & E1 & D1 & A1).
    bind_inv H as restart s2 H2. injection H2 as _ <-.
    bind_inv H as u3 s3 H3. injection H3 as _ <-.
    bind_inv H as p s4 H4.
    apply wait_readAvailable_io in H4 as (l2 & E2 & D2 & A2).
    cbn [io emit] in E2. rewrite E1 in E2.
    assert (X : stops_at_abort (l2 ++ Store IC_DATA_CMD
        (uint32 (data_cmd c (byteCtr =? 0)%nat (byteCtr =? length buf - 1)%nat
                   restart nostop (I2C0_IC_DATA_CMD_CMD c))) :: l1) = true).
    { rewrite stops_at_abort_skip by exact D2. exact A1. }
    destruct p as [|abort2 reason2].
    + ret_inv H as He Hs. subst s'.
      eexists (l2 ++ _ :: l1). rewrite E2.
      split; [norm_app; reflexivity | exact X].
    + destruct abort2.
      * ret_inv H as He Hs. subst s'.
        eexists (l2 ++ _ :: l1). rewrite E2.
        split; [norm_app; reflexivity | exact X].
      * destruct (A2 reason2 eq_refl) as [_ A2'].
        bind_inv H as v s5 H5. apply Get_io in H5.
        destruct (byteCtr <? length buf)%nat; [|discriminate H].
        apply IH in H as (l3 & E3 & S3).
        eexists (l3 ++ Load IC_DATA_CMD v :: l2 ++ _ :: l1).
        rewrite E3, H5, E2. split; [norm_app; reflexivity|].
        apply stops_at_abort_app; [|exact S3].
        cbn [no_abort is_abort negb andb]. rewrite no_abort_app, A2'.
        cbn [no_abort is_abort negb andb]. exact A1.
Qed.

(** X22: in the events of an rx call that returns, no access to
    IC_DATA_CMD (no command stored, no byte popped) is newer than an
    observed abort: the read loop is left at the abort. *)
Theorem rx_stops_at_abort :
  forall (fuel : nat) (addr : Z) (buf : list Z) (nostop : bool)
         (deadline : Z) (s s' : state) (r : option error * list Z),
    rx c dev fuel addr buf nostop deadline s = Returns (r, s') ->
    exists l, io s' = l ++ io s /\ stops_at_abort l = true.
Proof.
  intros fuel addr buf nostop deadline s s' r H. unfold rx in H.
  destruct (_ || _).
  { ret_inv H as He Hs. subst. exists []. split; reflexivity. }
  destruct (length buf =? 0)%nat.
  { ret_inv H as He Hs. subst. exists []. split; reflexivity. }
  bind_inv H as u1 s1 H1. bind_inv H as u2 s2 H2. bind_inv H as u3 s3 H3.
  injection H1 as _ <-. injection H2 as _ <-. injection H3 as _ <-.
  bind_inv H as e s4 H4. apply rx_loop_io in H4 as (l & E & S).
  assert (io s' = io s4) as ->.
  { destruct e as [[|abort reason byteCtr] buf'].
    - ret_inv H as He Hs. subst. reflexivity.
    - bind_inv H as u5 s5 H5. injection H5 as _ <-.
      ret_inv H as He Hs. subst. reflexivity. }
  eexists (l ++ [_; _; _]). rewrite E.
  split; [norm_app; reflexivity|].
  apply stops_at_abort_app; [reflexivity | exact S].
Qed.

End Reads.

(** ** The timeout check of rx *)

Lemma wait_readAvailable_quiet_spins (fuel : nat) :
  forall (nostop : bool) (s : state),
    wait_readAvailable quiet fuel false nostop false 0 s = Spins.
Proof.
  induction fuel as [|fuel IH]; intros nostop s; [reflexivity|].
  cbn [wait_readAvailable].
  erewrite bind_step by reflexivity.
  change ((uint32 (quiet (io s) IC_RXFLR) =? 0) && negb false) with true.
  cbn match.
  erewrite bind_step by reflexivity.
  apply IH.
Qed.

(** C5: a one-byte read from a device that never answers.  With deadline
    0 (no timeout passed) rx returns errI2CTimeout at the first poll; with
    any other deadline the timeout check is off and the poll never ends,
    whatever the bound on its iterations. *)
Theorem rx_timeout_active_when_zero :
  forall (fuel : nat) (deadline : Z),
    rx rp2040 quiet (S fuel) 0x10 [0] false deadline idle
    = if deadline =? 0
      then Returns ((Some errI2CTimeout, [0]), idle_after_rx_timeout)
      else Spins.
Proof.
  intros fuel deadline. unfold rx.
  change ((16 >=? 128) || isReservedI2CAddr 16) with false.
  cbn [length Nat.eqb].
  destruct (deadline =? 0).
  - reflexivity.
  - do 3 (erewrite bind_step by reflexivity).
    apply bind_Spins. cbn [rx_loop].
    do 3 (erewrite bind_step by reflexivity).
    apply bind_Spins. apply wait_readAvailable_quiet_spins.
Qed.

Lemma wait_raw_intr_stat_stuck_spins (fuel : nat) (mask : Z) :
  forall (nostop : bool) (s : state),
    Z.land 0xffffffff mask <> 0 ->
    wait_raw_intr_stat stuck fuel mask false nostop s = Spins.
Proof.
  induction fuel as [|fuel IH]; intros nostop s Hm; [reflexivity|].
  cbn [wait_raw_intr_stat].
  erewrite bind_step by reflexivity.
  change (uint32 (stuck (io s) IC_RAW_INTR_STAT)) with 0xffffffff.
  apply Z.eqb_neq in Hm. rewrite Hm. cbn [negb].
  apply IH. apply Z.eqb_neq. exact Hm.
Qed.

(** The write path for comparison: with timeout 0 the poll of a stuck
    device never ends, and with any other timeout tx returns
    errI2CTimeout. *)
Lemma tx_timeout_active_when_nonzero :
  forall (fuel : nat) (timeout : Z),
    result (tx rp2040 stuck (S fuel) 0x10 [0] false timeout idle)
    = if timeout =? 0 then None else Some (Some errI2CTimeout).
Proof.
  intros fuel timeout. unfold tx.
  change ((16 >=? 128) || isReservedI2CAddr 16) with false.
  cbn [length Nat.eqb].
  destruct (timeout =? 0).
  - do 3 (erewrite bind_step by reflexivity).
    erewrite bind_Spins; [reflexivity|]. cbn [tx_loop lookup list_lookup].
    do 2 (erewrite bind_step by reflexivity).
    apply bind_Spins. apply wait_raw_intr_stat_stuck_spins.
    vm_compute. discriminate.
  - reflexivity.
Qed.

Section Interrupts.

Variable dev : device.

(** ** Exclusive handlers *)

Lemma spinLock_wait_cases (fuel : nat) (lock : reg) :
  forall s,
    spinLock_wait dev fuel lock s = Spins
    \/ exists s', spinLock_wait dev fuel lock s = Returns (tt, s')
                  /\ vtable s' = vtable s.
Proof.
  induction fuel as [|fuel IH]; intros s; [left; reflexivity|].
  cbn [spinLock_wait]. erewrite bind_step by reflexivity.
  destruct (negb _).
  - destruct (IH (emit (Load lock (uint32 (dev (io s) lock))) s))
      as [E | (s' & E & V)].
    + left. exact E.
    + right. exists s'. split; [exact E | exact V].
  - right. eexists. split; reflexivity.
Qed.

Lemma spinLock_lock_cases (fuel : nat) (lock : reg) (s : state) :
  spinLock_lock dev fuel lock s = Spins
  \/ exists s', spinLock_lock dev fuel lock s = Returns (tt, s')
                /\ vtable s' = vtable s.
Proof.
  unfold spinLock_lock. erewrite bind_step by reflexivity.
  destruct (spinLock_wait_cases fuel lock (emit InterruptDisable s))
    as [E | (s' & E & V)].
  - left. apply bind_Spins. exact E.
  - right. erewrite bind_step by exact E.
    eexists. split; [reflexivity | exact V].
Qed.

Lemma irqSetExclusiveHandler_installs (fuel : nat) (num : Z)
    (handler : option irqHandler) (s s' : state) :
  irqSetExclusiveHandler dev fuel num handler s = Returns (tt, s') ->
  (num >=? _NUMIRQ) = false
  /\ vtable s' !! Z.to_nat (num + 16) = Some handler.
Proof.
  unfold irqSetExclusiveHandler. intros H.
  destruct (num >=? _NUMIRQ); [discriminate H|]. split; [reflexivity|].
  bind_inv H as lock s1 H1. bind_inv H as u2 s2 H2.
  bind_inv H as current s3 H3.
  destruct current as [h|]; [discriminate H|].
  bind_inv H as u4 s4 H4.
  unfold setVtableHandler in H4.
  destruct (Z.to_nat (16 + num) <? length (vtable s3))%nat eqn:L;
    [|discriminate H4].
  injection H4 as _ <-.
  unfold spinLock_unlock in H.
  bind_inv H as u5 s5 H5. bind_inv H as u6 s6 H6.
  injection H5 as _ <-. injection H6 as _ <-. injection H as <-.
  cbn [vtable emit set_vtable].
  replace (num + 16) with (16 + num) by lia.
  apply list_lookup_insert_eq. apply Nat.ltb_lt in L. exact L.
Qed.

(** C3: once irqSetExclusiveHandler has installed a handler on a line, a
    second call on that line does not return, whether it passes another
    handler or the same one: it panics on the non-nil entry (or is still
    waiting for the spin lock when the bound on the wait is reached).
    The check is on the entry being nil, not on the entry being the
    handler passed. *)
Theorem irqSetExclusiveHandler_same_handler_twice :
  forall (fuel fuel' : nat) (num : Z) (h : irqHandler)
         (again : option irqHandler) (s s' : state),
    irqSetExclusiveHandler dev fuel num (Some h) s = Returns (tt, s') ->
    irqSetExclusiveHandler dev fuel' num again s'
      = Panics "can't set handler due to non nil actual handler"
    \/ irqSetExclusiveHandler dev fuel' num again s' = Spins.
Proof.
  intros fuel fuel' num h again s s' H.
  apply irqSetExclusiveHandler_installs in H as [G V].
  unfold irqSetExclusiveHandler. rewrite G.
  erewrite bind_step by reflexivity.
  destruct (spinLock_lock_cases fuel' (SPINLOCK _PICO_SPINLOCK_ID_IRQ) s')
    as [E | (s2 & E & V2)].
  - right. apply bind_Spins. exact E.
  - left. erewrite bind_step by exact E.
    assert (C : getVtableHandler num s2 = Returns (Some h, s2)).
    { unfold getVtableHandler. rewrite G, V2, V. reflexivity. }
    erewrite bind_step by exact C. reflexivity.
Qed.

(** ** The dispatcher *)

Section Scan.

Variable getIntChange : Z -> Z -> Z.
Variable core : Z.
Variable banks : Z -> Z.
Hypothesis status_is_banks :
  forall (h : log) (idx : Z), uint32 (dev h (PROC_INTS core idx)) = banks idx.

Lemma Get_status (idx : Z) (s : state) :
  Get dev (PROC_INTS core idx) s
  = Returns (banks idx, emit (Load (PROC_INTS core idx) (banks idx)) s).
Proof using status_is_banks.
  unfold Get. rewrite status_is_banks. reflexivity.
Qed.

Lemma pinCallbacks_scanned (n : nat) :
  forall gpio s, pinCallbacks (scanned banks core n gpio s) = pinCallbacks s.
Proof.
  induction n as [|n IH]; intros gpio s; [reflexivity|].
  cbn [scanned]. rewrite IH. reflexivity.
Qed.

Lemma gpio_scan_lowest (cb : callback) :
  forall (n todo : nat) (gpio p : Z) (s : state),
    (n < todo)%nat ->
    0 <= core ->
    p = gpio + Z.of_nat n ->
    (forall q, gpio <= q < p -> getIntChange q (banks (Z.shiftr q 3)) = 0) ->
    getIntChange p (banks (Z.shiftr p 3)) <> 0 ->
    pinCallbacks s !! Z.to_nat core = Some (Some cb) ->
    gpio_scan dev getIntChange todo core gpio s
    = Returns (tt,
        emit (Call cb [p])
          (emit (AcknowledgeInterrupt p
                   (getIntChange p (banks (Z.shiftr p 3))))
             (scanned banks core (S n) gpio s))).
Proof using status_is_banks.
  induction n as [|n IH]; intros todo gpio p s Hn Hc Hp Hlow Hpend Hcb;
    (destruct todo as [|todo]; [lia|]); cbn [gpio_scan scanned].
  - assert (E : p = gpio) by lia. clear Hp. subst p.
    rewrite (bind_step _ _ _ _ _ (Get_status _ s)).
    apply Z.eqb_neq in Hpend. rewrite Hpend. cbn [negb].
    erewrite bind_step by reflexivity.
    unfold call_pinCallback. cbn [pinCallbacks emit].
    replace (0 <=? core) with true by (symmetry; apply Z.leb_le; lia).
    rewrite Hcb. reflexivity.
  - rewrite (bind_step _ _ _ _ _ (Get_status _ s)).
    rewrite (Hlow gpio) by lia. cbn [Z.eqb negb].
    apply IH; try assumption; try lia.
    intros q Hq. apply Hlow. lia.
Qed.

End Scan.

(** C6, amended: when the status registers of the executing core show at
    least one pin pending and that core has a callback, one call of
    gpioirqHandler loads the status of the pins 0 to p, where p is the
    lowest pending pin, acknowledges the change of p, calls the callback
    with the pin p as its only argument, and returns; no other pin is
    acknowledged or reported. *)
Theorem gpioirqHandler_services_lowest_pending :
  forall (getIntChange : Z -> Z -> Z) (core : Z) (banks : Z -> Z) (p : Z)
         (cb : callback) (s : state),
    core = 0 \/ core = 1 ->
    (forall (h : log) (idx : Z),
        uint32 (dev h (PROC_INTS core idx)) = banks idx) ->
    0 <= p < _NUMBANK0_GPIOS ->
    getIntChange p (banks (Z.shiftr p 3)) <> 0 ->
    (forall q, 0 <= q < p -> getIntChange q (banks (Z.shiftr q 3)) = 0) ->
    pinCallbacks s !! Z.to_nat core = Some (Some cb) ->
    gpioirqHandler dev getIntChange core s
    = Returns (tt,
        emit (Call cb [p])
          (emit (AcknowledgeInterrupt p
                   (getIntChange p (banks (Z.shiftr p 3))))
             (scanned banks core (S (Z.to_nat p)) 0 s))).
Proof.
  intros getIntChange core banks p cb s Hcore Hdev Hp Hpend Hlow Hcb.
  unfold gpioirqHandler.
  replace ((core =? 0) || (core =? 1)) with true
    by (destruct Hcore; subst; reflexivity).
  unfold _NUMBANK0_GPIOS in *.
  apply gpio_scan_lowest; try assumption; try lia.
Qed.

End Interrupts.

(** C3 on line 13 with the dispatcher as the handler. *)
Lemma irqSetExclusiveHandler_same_handler_twice_witness :
  exists s',
    irqSetExclusiveHandler quiet 1 13 (Some gpioirqHandler_fn) idle
      = Returns (tt, s')
    /\ (irqSetExclusiveHandler quiet 1 13 (Some gpioirqHandler_fn) s'
         = Panics "can't set handler due to non nil actual handler"
       \/ irqSetExclusiveHandler quiet 1 13 (Some gpioirqHandler_fn) s'
         = Spins).
Proof.
  eexists. split; [vm_compute; reflexivity|].
  apply (irqSetExclusiveHandler_same_handler_twice quiet 1 1 13
           gpioirqHandler_fn (Some gpioirqHandler_fn) idle).
  vm_compute; reflexivity.
Defined.

(** Registering a second pin: the second setIRQ on a core panics. *)
Example setIRQ_second_pin_panics :
  exists s',
    setIRQ rp2040 quiet 1 0 5 4 (Some 7%nat) idle = Returns (tt, s')
    /\ setIRQ rp2040 quiet 1 0 9 1 (Some 7%nat) s'
       = Panics "can't set handler due to non nil actual handler".
Proof.
  eexists. split; vm_compute; reflexivity.
Qed.

(** C6 with pins 5 and 9 pending on core 0: pin 5 is serviced. *)
Lemma gpioirqHandler_services_lowest_pending_witness :
  gpioirqHandler (pending two_pending) getIntChange_rp2040 0 armed
  = Returns (tt,
      emit (Call 7%nat [5])
        (emit (AcknowledgeInterrupt 5 4)
           (scanned two_pending 0 6 0 armed))).
Proof.
  apply (gpioirqHandler_services_lowest_pending (pending two_pending)
           getIntChange_rp2040 0 two_pending 5 7%nat armed).
  - left. reflexivity.
  - intros h idx. unfold pending, two_pending.
    destruct (idx =? 0); [reflexivity|]. destruct (idx =? 1); reflexivity.
  - vm_compute. intuition discriminate.
  - vm_compute. discriminate.
  - intros q Hq.
    assert (q = 0 \/ q = 1 \/ q = 2 \/ q = 3 \/ q = 4) as C by lia.
    destruct C as [-> | [-> | [-> | [-> | ->]]]]; reflexivity.
  - reflexivity.
Defined.

(** C6 as stated has the callback receive the pin and the event mask.
    With a falling edge (4) pending on pin 5 the callback is called with
    the pin alone: no call with arguments 5 and 4 is in the log. *)
Lemma gpioirqHandler_callback_gets_pin_only :
  ~ (exists s',
       gpioirqHandler (pending two_pending) getIntChange_rp2040 0 armed
         = Returns (tt, s')
       /\ In (Call 7%nat [5; 4]) (io s')).
Proof.
  intros (s' & H & Hin).
  vm_compute in H. injection H as <-.
  cbn in Hin. intuition discriminate.
Qed.

(** ** What SetBaudrate and Configure accept and program *)

Section BaudRateMore.

Variable c : rp.
Variable dev : device.

Lemma uint32_idem (x : Z) : uint32 (uint32 x) = uint32 x.
Proof. unfold uint32. apply Z.mod_mod. discriminate. Qed.

Lemma uint32_small (x : Z) : 0 <= x < 2 ^ 32 -> uint32 x = x.
Proof. unfold uint32. apply Z.mod_small. Qed.

Lemma hcnt_range (br : Z) : 0 <= hcnt br < 2 ^ 32.
Proof. unfold hcnt, uint32. apply Z.mod_pos_bound. reflexivity. Qed.

(** The two ways SetBaudrate returns. *)
Lemma SetBaudrate_returns (br : Z) (s s' : state) (r : option error) :
  SetBaudrate c dev br s = Returns (r, s') ->
  (r = Some errInvalidI2CBaudrate /\ s' = s)
  \/ (r = None /\ self s' = self s
      /\ last_store IC_ENABLE (io s') = Some 1
      /\ last_store IC_FS_SCL_HCNT (io s') = Some (hcnt br)
      /\ last_store IC_FS_SCL_LCNT (io s') = Some (lcnt br)
      /\ last_store IC_FS_SPKLEN (io s') = Some (umax32 1 (lcnt br / 16))).
Proof.
  unfold SetBaudrate. intros H.
  destruct (br =? 0); [discriminate H|].
  destruct (_ || _).
  { left. injection H as <- <-. split; reflexivity. }
  destruct (_ <=? _).
  { left. injection H as <- <-. split; reflexivity. }
  right.
  cbv [mbind M_bind enable disable Set_ ReplaceBits Get emit mret M_ret] in H.
  injection H as <- <-. cbn [self io last_store reg_eqb].
  pose proof (lcnt_range br) as L. pose proof (hcnt_range br) as Hh.
  repeat split.
  - rewrite uint32_small by exact Hh. reflexivity.
  - rewrite uint32_small by exact L. reflexivity.
  - rewrite uint32_small; [reflexivity|].
    unfold umax32. change (2 ^ 32) with 4294967296 in *.
    assert (0 <= lcnt br / 16 <= lcnt br).
    { split; [apply Z.div_pos; lia|].
      apply Z.div_le_upper_bound; lia. }
    destruct (1 >? lcnt br / 16); lia.
Qed.

(** X1: for a non-zero frequency, SetBaudrate returns nil exactly when
    the low and high counts are between 8 and their register maximum and
    the hold count is above low - 2. *)
Theorem SetBaudrate_accepts_iff :
  forall (br : Z) (s : state),
    0 < br ->
    (exists s', SetBaudrate c dev br s = Returns (None, s'))
    <-> (8 <= lcnt br <= I2C0_IC_FS_SCL_LCNT_IC_FS_SCL_LCNT_Msk c
         /\ 8 <= hcnt br <= I2C0_IC_FS_SCL_HCNT_IC_FS_SCL_HCNT_Msk c
         /\ lcnt br - 2 < sdaTxHoldCnt br).
Proof.
  intros br s Hbr. pose proof (lcnt_range br) as L.
  unfold SetBaudrate.
  replace (br =? 0) with false by (symmetry; apply Z.eqb_neq; lia).
  rewrite !Z.gtb_ltb.
  destruct (Z.ltb_spec (I2C0_IC_FS_SCL_HCNT_IC_FS_SCL_HCNT_Msk c) (hcnt br));
    cbn [orb].
  { split; [intros [s' E]; discriminate E | lia]. }
  destruct (Z.ltb_spec (hcnt br) 8); cbn [orb].
  { split; [intros [s' E]; discriminate E | lia]. }
  destruct (Z.ltb_spec (I2C0_IC_FS_SCL_LCNT_IC_FS_SCL_LCNT_Msk c) (lcnt br));
    cbn [orb].
  { split; [intros [s' E]; discriminate E | lia]. }
  destruct (Z.ltb_spec (lcnt br) 8); cbn [orb].
  { split; [intros [s' E]; discriminate E | lia]. }
  rewrite (uint32_small (lcnt br - 2)) by lia.
  destruct (Z.leb_spec (sdaTxHoldCnt br) (lcnt br - 2)).
  { split; [intros [s' E]; discriminate E | lia]. }
  split; [lia|]. intros _. eexists. reflexivity.
Qed.

(** X2: when SetBaudrate returns nil, the high-count, low-count and
    spike-length registers hold the counts computed from the frequency
    (the spike length is low / 16, at least 1), the controller is enabled
    by the last store to IC_ENABLE, and restartOnNext is as it was. *)
Theorem SetBaudrate_programs_counts :
  forall (br : Z) (s s' : state),
    SetBaudrate c dev br s = Returns (None, s') ->
    last_store IC_FS_SCL_HCNT (io s') = Some (hcnt br)
    /\ last_store IC_FS_SCL_LCNT (io s') = Some (lcnt br)
    /\ last_store IC_FS_SPKLEN (io s') = Some (umax32 1 (lcnt br / 16))
    /\ last_store IC_ENABLE (io s') = Some 1
    /\ restartOnNext (self s') = restartOnNext (self s).
Proof.
  intros br s s' H.
  apply SetBaudrate_returns in H as [[H _] | (_ & Hs & He & Hh & Hl & Hk)];
    [discriminate H|].
  rewrite Hs. repeat split; assumption.
Qed.

Lemma wait_reset_done_cases (fuel : nat) (resetVal : Z) :
  forall s,
    wait_reset_done dev fuel resetVal s = Spins
    \/ exists s', wait_reset_done dev fuel resetVal s = Returns (tt, s').
Proof.
  induction fuel as [|fuel IH]; intros s; [left; reflexivity|].
  cbn [wait_reset_done].
  erewrite bind_step by reflexivity.
  destruct (negb (negb _)).
  - apply IH.
  - right. eexists. reflexivity.
Qed.

Lemma reset_cases (fuel : nat) (s : state) :
  reset c dev fuel s = Spins
  \/ exists s', reset c dev fuel s = Returns (tt, s').
Proof.
  cbv [reset deinit get_Bus SetBits ClearBits mbind M_bind Get Set_
       mret M_ret].
  apply wait_reset_done_cases.
Qed.

(** X4: however Configure returns, restartOnNext is false; it returns
    either nil with the controller enabled or errInvalidI2CBaudrate with
    the controller disabled (the last store to IC_ENABLE is 0). *)
Theorem Configure_outcome :
  forall (fuel : nat) (Frequency : Z) (s s' : state) (r : option error),
    Configure c dev fuel Frequency s = Returns (r, s') ->
    restartOnNext (self s') = false
    /\ ((r = None /\ last_store IC_ENABLE (io s') = Some 1)
        \/ (r = Some errInvalidI2CBaudrate
            /\ last_store IC_ENABLE (io s') = Some 0)).
Proof.
  unfold Configure, init. intros fuel Frequency s s' r H.
  bind_inv H as u1 s1 H1. bind_inv H as u2 s2 H2. bind_inv H as u3 s3 H3.
  bind_inv H as u4 s4 H4. bind_inv H as u5 s5 H5. bind_inv H as u6 s6 H6.
  bind_inv H as u7 s7 H7.
  injection H2 as _ <-. injection H3 as _ <-. injection H4 as _ <-.
  injection H5 as _ <-. injection H6 as _ <-. injection H7 as _ <-.
  apply SetBaudrate_returns in H as [[-> ->] | (-> & Hs & He & _)].
  - split; [reflexivity|]. right. split; reflexivity.
  - rewrite Hs. split; [reflexivity|]. left. split; [reflexivity | exact He].
Qed.

(** X5: Configure with frequency 0 (the zero value of I2CConfig) never
    returns: once the reset is done it panics on the division by the
    frequency. *)
Theorem Configure_zero_frequency :
  forall (fuel : nat) (s : state),
    Configure c dev fuel 0 s = Panics "integer divide by zero"
    \/ Configure c dev fuel 0 s = Spins.
Proof.
  intros fuel s. unfold Configure, init.
  destruct (reset_cases fuel s) as [E | [s1 E]].
  - right. apply bind_Spins. exact E.
  - left. erewrite bind_step by exact E.
    do 6 (erewrite bind_step by reflexivity). reflexivity.
Qed.

End BaudRateMore.

(** X1 at 5 MHz: period 25, low count 15, high count 10, hold count 16. *)
Lemma SetBaudrate_accepts_iff_witness :
  (exists s', SetBaudrate rp2040 quiet 5000000 idle = Returns (None, s'))
  <-> (8 <= lcnt 5000000 <= 0xffff /\ 8 <= hcnt 5000000 <= 0xffff
       /\ lcnt 5000000 - 2 < sdaTxHoldCnt 5000000).
Proof.
  apply (SetBaudrate_accepts_iff rp2040 quiet 5000000 idle). reflexivity.
Defined.

(** X2 at 5 MHz. *)
Lemma SetBaudrate_programs_counts_witness :
  exists s',
    SetBaudrate rp2040 quiet 5000000 idle = Returns (None, s')
    /\ last_store IC_FS_SCL_HCNT (io s') = Some 10
    /\ last_store IC_FS_SCL_LCNT (io s') = Some 15
    /\ last_store IC_FS_SPKLEN (io s') = Some 1
    /\ last_store IC_ENABLE (io s') = Some 1
    /\ restartOnNext (self s') = false.
Proof.
  eexists. split; [vm_compute; reflexivity|].
  apply (SetBaudrate_programs_counts rp2040 quiet 5000000 idle).
  vm_compute; reflexivity.
Defined.

(** X3 at 400 kHz. *)
Lemma SetBaudrate_below_1MHz_rejected_witness :
  SetBaudrate rp2040 quiet 400000 idle
  = Returns (Some errInvalidI2CBaudrate, idle).
Proof.
  apply (SetBaudrate_below_1MHz_rejected rp2040 quiet 400000 idle). lia.
Defined.

(** X4 at 100 kHz and at 5 MHz, on a device whose reset is done at
    once. *)
Lemma Configure_outcome_witness :
  exists s1 s2,
    Configure rp2040 stuck 1 100000 idle
      = Returns (Some errInvalidI2CBaudrate, s1)
    /\ restartOnNext (self s1) = false
    /\ last_store IC_ENABLE (io s1) = Some 0
    /\ Configure rp2040 stuck 1 5000000 idle = Returns (None, s2)
    /\ restartOnNext (self s2) = false
    /\ last_store IC_ENABLE (io s2) = Some 1.
Proof.
  eexists _, _.
  split; [vm_compute; reflexivity|].
  destruct (Configure_outcome rp2040 stuck 1 100000 idle _
              (Some errInvalidI2CBaudrate) ltac:(vm_compute; reflexivity))
    as [R1 _].
  split; [exact R1|]. split; [vm_compute; reflexivity|].
  split; [vm_compute; reflexivity|].
  destruct (Configure_outcome rp2040 stuck 1 5000000 idle _ None
              ltac:(vm_compute; reflexivity)) as [R2 _].
  split; [exact R2 | vm_compute; reflexivity].
Defined.

(** ** The command words of a write *)

Section Frames.

Variable c : rp.
Variable dev : device.

Lemma Get_emit (r : reg) (s s' : state) (v : Z) :
  Get dev r s = Returns (v, s') -> s' = emit (Load r v) s.
Proof. unfold Get. intros H. injection H as <- <-. reflexivity. Qed.

(** A poll of the raw interrupt status with the timeout check off ends
    with the loop condition false and has only loaded. *)
Lemma wait_raw_intr_stat_unchecked (fuel : nat) (mask : Z) (nostop : bool) :
  forall (s s' : state) (t : bool),
    wait_raw_intr_stat dev fuel mask false nostop s = Returns (t, s') ->
    t = false /\ self s' = self s
    /\ data_cmd_stores (io s') = data_cmd_stores (io s).
Proof.
  induction fuel as [|fuel IH]; intros s s' t H; cbn [wait_raw_intr_stat] in H.
  - discriminate H.
  - bind_inv H as v s1 H1. apply Get_emit in H1. subst s1.
    destruct (negb _).
    + apply IH in H. exact H.
    + ret_inv H as He Hs. subst. repeat split.
Qed.

Lemma tx_loop_frames (fuel : nat) (data : list Z) (nostop : bool) :
  forall (todo byteCtr : nat) (abort : bool) (abortReason : Z)
         (s s' : state) (e : loop_exit),
    length data = (byteCtr + todo)%nat ->
    tx_loop c dev fuel data nostop false todo byteCtr abort abortReason s
      = Returns (e, s') ->
    (exists a r, e = LoopDone a r (length data))
    /\ self s' = self s
    /\ data_cmd_stores (io s')
       = rev (frames_from c (restartOnNext (self s)) nostop (length data)
                byteCtr (drop byteCtr data))
         ++ data_cmd_stores (io s).
Proof.
  induction todo as [|todo IH];
    intros byteCtr abort abortReason s s' e L H; cbn [tx_loop] in H.
  - ret_inv H as He Hs. subst.
    rewrite drop_ge by lia. split; [|split; reflexivity].
    exists abort, abortReason. f_equal. lia.
  - destruct (data !! byteCtr) as [b|] eqn:Hb; [|discriminate H].
    bind_inv H as restart s1 H1. injection H1 as <- <-.
    bind_inv H as u2 s2 H2. injection H2 as _ <-.
    bind_inv H as t3 s3 H3.
    apply wait_raw_intr_stat_unchecked in H3 as (-> & S3 & D3).
    bind_inv H as reason s4 H4. apply Get_emit in H4. subst s4.
    bind_inv H as abort' s5 H5. bind_inv H as t6 s6 H6.
    assert (E5 : self s5 = self s3
                 /\ data_cmd_stores (io s5) = data_cmd_stores (io s3)).
    { destruct (negb (reason =? 0)).
      - bind_inv H5 as v s7 H7. apply Get_emit in H7. subst s7.
        ret_inv H5 as He Hs. subst. split; reflexivity.
      - ret_inv H5 as He Hs. subst. split; reflexivity. }
    destruct E5 as [S5 D5].
    assert (E6 : t6 = false /\ self s6 = self s5
                 /\ data_cmd_stores (io s6) = data_cmd_stores (io s5)).
    { destruct (abort' || _).
      - bind_inv H6 as t7 s7 H7.
        apply wait_raw_intr_stat_unchecked in H7 as (-> & S7 & D7).
        bind_inv H6 as v s8 H8. apply Get_emit in H8. subst s8.
        ret_inv H6 as He Hs. subst. repeat split; assumption.
      - ret_inv H6 as He Hs. subst. repeat split. }
    destruct E6 as (-> & S6 & D6).
    apply IH in H as (X & S' & D'); [|lia].
    split; [exact X|]. split; [rewrite S', S6, S5, S3; reflexivity|].
    rewrite D', D6, D5, D3, S6, S5, S3.
    rewrite (drop_S _ _ _ Hb). cbn [frames_from rev emit io self
                                     data_cmd_stores].
    rewrite <- app_assoc. reflexivity.
Qed.

(** A write with no timeout passed, in one statement: the command words
    it stored and the flag it leaves. *)
Lemma tx_unchecked_summary :
  forall (fuel : nat) (addr : Z) (data : list Z) (nostop : bool)
         (s s' : state) (r : option error),
    valid_addr addr = true ->
    tx c dev fuel addr data nostop 0 s = Returns (r, s') ->
    data_cmd_stores (io s')
    = rev (frames c (restartOnNext (self s)) nostop data)
      ++ data_cmd_stores (io s)
    /\ (data <> [] -> restartOnNext (self s') = nostop).
Proof.
  intros fuel addr data nostop s s' r Hv H.
  unfold valid_addr in Hv. apply negb_true_iff in Hv.
  unfold tx in H. rewrite Hv in H. clear Hv.
  destruct (length data =? 0)%nat eqn:L.
  { ret_inv H as He Hs. subst. apply Nat.eqb_eq in L.
    destruct data; [|discriminate L].
    split; [reflexivity | congruence]. }
  bind_inv H as u1 s1 H1. bind_inv H as u2 s2 H2. bind_inv H as u3 s3 H3.
  injection H1 as _ <-. injection H2 as _ <-. injection H3 as _ <-.
  bind_inv H as e s4 H4.
  change (negb (0 =? 0)) with false in H4.
  apply tx_loop_frames in H4 as ((a & r' & ->) & S4 & D4); [|reflexivity].
  bind_inv H as u5 s5 H5. injection H5 as _ <-.
  ret_inv H as He Hs. subst s'.
  cbn [io self set_restartOnNext restartOnNext]. rewrite D4.
  split; reflexivity.
Qed.

(** X6: with no timeout passed, a tx call that returns has stored to
    IC_DATA_CMD exactly one command word per byte of the payload, in
    order: the byte itself, with the restart bit on the first byte when
    restartOnNext was set at the call, and the stop bit on the last byte
    unless noStop; this whatever the abort source returned on the way. *)
Theorem tx_stores_frames :
  forall (fuel : nat) (addr : Z) (data : list Z) (nostop : bool)
         (s s' : state) (r : option error),
    valid_addr addr = true ->
    tx c dev fuel addr data nostop 0 s = Returns (r, s') ->
    data_cmd_stores (io s')
    = rev (frames c (restartOnNext (self s)) nostop data)
      ++ data_cmd_stores (io s).
Proof.
  intros fuel addr data nostop s s' r Hv H.
  destruct (tx_unchecked_summary fuel addr data nostop s s' r Hv H)
    as [Hstores _].
  exact Hstores.
Qed.

(** X7: with no timeout passed tx never returns errI2CTimeout. *)
Theorem tx_unchecked_never_times_out :
  forall (fuel : nat) (addr : Z) (data : list Z) (nostop : bool)
         (s s' : state) (r : option error),
    tx c dev fuel addr data nostop 0 s = Returns (r, s') ->
    r <> Some errI2CTimeout.
Proof.
  intros fuel addr data nostop s s' r H. unfold tx in H.
  destruct (_ || _).
  { ret_inv H as He Hs. subst. discriminate. }
  destruct (length data =? 0)%nat.
  { ret_inv H as He Hs. subst. discriminate. }
  bind_inv H as u1 s1 H1. bind_inv H as u2 s2 H2. bind_inv H as u3 s3 H3.
  bind_inv H as e s4 H4.
  change (negb (0 =? 0)) with false in H4.
  apply tx_loop_frames in H4 as ((a & r' & ->) & _ & _); [|reflexivity].
  bind_inv H as u5 s5 H5. ret_inv H as He Hs. subst r.
  destruct a; [|discriminate].
  unfold tx_classify, makeI2CBuffError.
  destruct (_ || _); [discriminate|].
  destruct (negb (Z.land _ _ =? 0)); discriminate.
Qed.

(** With the timeout check on, a poll of the raw interrupt status is one
    load. *)
Lemma wait_raw_intr_stat_checked (fuel : nat) (mask : Z) (nostop : bool)
    (s : state) :
  exists t s', wait_raw_intr_stat dev (S fuel) mask true nostop s
               = Returns (t, s').
Proof.
  cbn [wait_raw_intr_stat]. erewrite bind_step by reflexivity.
  destruct (negb _); eexists _, _; reflexivity.
Qed.

Lemma tx_loop_checked_returns (fuel : nat) (data : list Z) (nostop : bool) :
  forall (todo byteCtr : nat) (abort : bool) (abortReason : Z) (s : state),
    length data = (byteCtr + todo)%nat ->
    exists e s',
      tx_loop c dev (S fuel) data nostop true todo byteCtr abort abortReason s
      = Returns (e, s').
Proof.
  induction todo as [|todo IH]; intros byteCtr abort abortReason s L;
    cbn [tx_loop].
  - eexists _, _. reflexivity.
  - destruct (lookup_lt_is_Some_2 data byteCtr ltac:(lia)) as [b ->].
    do 2 (erewrite bind_step by reflexivity).
    destruct (wait_raw_intr_stat_checked fuel
                (I2C0_IC_RAW_INTR_STAT_TX_EMPTY c) nostop
                (emit (Store IC_DATA_CMD
                   (uint32 (data_cmd c (byteCtr =? 0)%nat
                              (byteCtr =? length data - 1)%nat
                              (restartOnNext (self s)) nostop (uint8 b)))) s))
      as (t & s3 & E3).
    erewrite bind_step by exact E3.
    destruct t; [eexists _, _; reflexivity|].
    erewrite bind_step by reflexivity.
    set (reason := uint32 (dev (io s3) IC_TX_ABRT_SOURCE)).
    set (s4 := emit (Load IC_TX_ABRT_SOURCE reason) s3).
    assert (exists abort' s5,
      (if negb (reason =? 0)
       then Get dev IC_CLR_TX_ABRT ≫= λ _ : Z, mret true
       else mret abort) s4 = Returns (abort', s5)) as (abort' & s5 & E5).
    { destruct (negb (reason =? 0)); eexists _, _; reflexivity. }
    erewrite bind_step by exact E5.
    assert (exists t6 s6,
      (if abort' || (byteCtr =? length data - 1)%nat && negb nostop
       then wait_raw_intr_stat dev (S fuel)
              (I2C0_IC_RAW_INTR_STAT_STOP_DET c) true nostop
            ≫= λ t : bool,
                 if t then mret true
                 else Get dev IC_CLR_STOP_DET ≫= λ _ : Z, mret false
       else mret false) s5 = Returns (t6, s6)) as (t6 & s6 & E6).
    { destruct (abort' || _); [|eexists _, _; reflexivity].
      destruct (wait_raw_intr_stat_checked fuel
                  (I2C0_IC_RAW_INTR_STAT_STOP_DET c) nostop s5)
        as (t & s7 & E7).
      erewrite bind_step by exact E7.
      destruct t; eexists _, _; reflexivity. }
    erewrite bind_step by exact E6.
    destruct t6; [eexists _, _; reflexivity|].
    apply IH. lia.
Qed.

(** X8: with a timeout passed (any non-zero value), tx returns for every
    device and every payload: each of its polls gives up after one load,
    so the call never hangs. *)
Theorem tx_with_timeout_returns :
  forall (fuel : nat) (addr : Z) (data : list Z) (nostop : bool)
         (timeout : Z) (s : state),
    timeout <> 0 ->
    exists r s', tx c dev (S fuel) addr data nostop timeout s = Returns (r, s').
Proof.
  intros fuel addr data nostop timeout s Ht. unfold tx.
  destruct (_ || _); [eexists _, _; reflexivity|].
  destruct (length data =? 0)%nat; [eexists _, _; reflexivity|].
  do 3 (erewrite bind_step by reflexivity).
  replace (negb (timeout =? 0)) with true
    by (symmetry; apply negb_true_iff, Z.eqb_neq; exact Ht).
  destruct (tx_loop_checked_returns fuel data nostop (length data) 0 false 0
              (emit (Store IC_ENABLE (uint32 1))
                 (emit (Store IC_TAR (uint32 addr))
                    (emit (Store IC_ENABLE (uint32 0)) s))) eq_refl)
    as (e & s4 & E4).
  erewrite bind_step by exact E4.
  destruct e; eexists _, _; reflexivity.
Qed.

End Frames.

(** X6 on a three-byte write with the stop condition, the bus closed
    before the call: plain bytes, the stop bit (0x200) on the last. *)
Lemma tx_stores_frames_witness :
  exists s',
    tx rp2040 quiet 1 0x10 [1; 2; 3] false 0 idle = Returns (None, s')
    /\ data_cmd_stores (io s') = rev [1; 2; 0x203] ++ [].
Proof.
  eexists. split; [vm_compute; reflexivity|].
  apply (tx_stores_frames rp2040 quiet 1 0x10 [1; 2; 3] false idle _ None);
    vm_compute; reflexivity.
Defined.

(** X7 on a write that is not acknowledged. *)
Lemma tx_unchecked_never_times_out_witness :
  exists s',
    tx rp2040 (nack_once 0x1) 1 0x10 [1] false 0 idle
      = Returns (Some errI2CGeneric, s')
    /\ Some errI2CGeneric <> Some errI2CTimeout.
Proof.
  eexists. split; [vm_compute; reflexivity|].
  eapply (tx_unchecked_never_times_out rp2040 (nack_once 0x1) 1 0x10 [1]
            false idle).
  vm_compute; reflexivity.
Defined.

(** X8 on a device whose status bits never clear. *)
Lemma tx_with_timeout_returns_witness :
  exists r s', tx rp2040 stuck 1 0x10 [1; 2] false 7 idle = Returns (r, s').
Proof.
  apply (tx_with_timeout_returns rp2040 stuck 0 0x10 [1; 2] false 7 idle).
  lia.
Defined.

(** ** What a read delivers *)

Section ReadResults.

Variable c : rp.
Variable dev : device.

Lemma wait_writeAvailable_quiet (fuel : nat) :
  forall (s s' : state) (u : unit),
    wait_writeAvailable c dev fuel s = Returns (u, s') ->
    self s' = self s
    /\ data_cmd_stores (io s') = data_cmd_stores (io s)
    /\ data_cmd_loads (io s') = data_cmd_loads (io s).
Proof.
  induction fuel as [|fuel IH]; intros s s' u H; cbn [wait_writeAvailable] in H.
  - discriminate H.
  - bind_inv H as n s1 H1. unfold writeAvailable in H1.
    bind_inv H1 as v s2 H2. ret_inv H1 as He Hs. subst s1.
    apply Get_emit in H2. subst s2.
    destruct (n =? 0).
    + apply IH in H. exact H.
    + ret_inv H as He' Hs. subst. repeat split.
Qed.

(** The wait for a byte, left otherwise than by the timeout: only loads
    of the FIFO level and of the abort source. *)
Lemma wait_readAvailable_done (fuel : nat) (tc nostop : bool) :
  forall (abort : bool) (reason : Z) (s s' : state) (a : bool) (r : Z),
    wait_readAvailable dev fuel tc nostop abort reason s
      = Returns (PollDone a r, s') ->
    self s' = self s
    /\ data_cmd_stores (io s') = data_cmd_stores (io s)
    /\ data_cmd_loads (io s') = data_cmd_loads (io s).
Proof.
  induction fuel as [|fuel IH]; intros abort reason s s' a r H;
    cbn [wait_readAvailable] in H.
  - discriminate H.
  - bind_inv H as n s1 H1. unfold readAvailable in H1.
    apply Get_emit in H1. subst s1.
    destruct ((n =? 0) && negb abort).
    + bind_inv H as v s2 H2. apply Get_emit in H2. subst s2.
      destruct tc.
      * bind_inv H as u s3 H3. ret_inv H as He Hs. discriminate He.
      * apply IH in H. exact H.
    + ret_inv H as He Hs. subst. repeat split.
Qed.

Lemma wait_readAvailable_unchecked (fuel : nat) (nostop : bool) :
  forall (abort : bool) (reason : Z) (s s' : state) (p : poll_exit),
    wait_readAvailable dev fuel false nostop abort reason s = Returns (p, s') ->
    p <> PollTimedOut.
Proof.
  induction fuel as [|fuel IH]; intros abort reason s s' p H;
    cbn [wait_readAvailable] in H.
  - discriminate H.
  - bind_inv H as n s1 H1.
    destruct ((n =? 0) && negb abort).
    + bind_inv H as v s2 H2. eapply IH; eauto.
    + ret_inv H as He Hs. subst. discriminate.
Qed.

Lemma rx_loop_completes (fuel : nat) (nostop tc : bool) :
  forall (todo byteCtr : nat) (reason : Z) (buf : list Z) (s s' : state)
         (r : Z) (k : nat) (buf' : list Z),
    length buf = (byteCtr + todo)%nat ->
    rx_loop c dev fuel nostop tc todo byteCtr false reason buf s
      = Returns ((LoopDone false r k, buf'), s') ->
    self s' = self s
    /\ data_cmd_stores (io s')
       = rev (read_frames_from c (restartOnNext (self s)) nostop
                (length buf) byteCtr todo)
         ++ data_cmd_stores (io s)
    /\ exists L, data_cmd_loads (io s') = L ++ data_cmd_loads (io s)
                 /\ buf' = take byteCtr buf ++ map uint8 (rev L).
Proof.
  induction todo as [|todo IH];
    intros byteCtr reason buf s s' r k buf' L H; cbn [rx_loop] in H.
  - ret_inv H as He Hs. injection He as _ _ ->. subst s'.
    split; [reflexivity|]. split; [reflexivity|].
    exists []. split; [reflexivity|].
    cbn [rev map]. rewrite app_nil_r, take_ge by lia. reflexivity.
  - bind_inv H as u1 s1 H1.
    apply wait_writeAvailable_quiet in H1 as (S1 & D1 & L1).
    bind_inv H as restart s2 H2. injection H2 as <- <-.
    bind_inv H as u3 s3 H3. injection H3 as _ <-.
    bind_inv H as p s4 H4.
    destruct p as [|abort2 reason2]; [ret_inv H as He Hs; discriminate He|].
    apply wait_readAvailable_done in H4 as (S4 & D4 & L4).
    destruct abort2; [ret_inv H as He Hs; discriminate He|].
    bind_inv H as v s5 H5. apply Get_emit in H5. subst s5.
    destruct (byteCtr <? length buf)%nat eqn:B; [|discriminate H].
    apply Nat.ltb_lt in B.
    apply IH in H as (S' & D' & (L' & EL & EB));
      [|rewrite length_insert; lia].
    rewrite length_insert in D'.
    split.
    { rewrite S'. cbn [self emit]. rewrite S4. cbn [self emit]. exact S1. }
    split.
    + rewrite D'. cbn [emit io self data_cmd_stores].
      rewrite D4, S4. cbn [emit io self data_cmd_stores].
      rewrite D1, S1. cbn [read_frames_from rev].
      rewrite <- app_assoc. reflexivity.
    + exists (L' ++ [v]). split.
      * rewrite EL. cbn [emit io data_cmd_loads]. rewrite L4.
        cbn [emit io data_cmd_loads]. rewrite L1, <- app_assoc. reflexivity.
      * rewrite EB, rev_app_distr. cbn [rev app map].
        rewrite (take_S_r _ _ (uint8 v))
          by (apply list_lookup_insert_eq; lia).
        rewrite take_insert_ge by lia. rewrite <- app_assoc. reflexivity.
Qed.

(** A read that returns nil, in one statement: the commands it stored,
    the bytes it popped and the flag it leaves. *)
Lemma rx_nil_summary :
  forall (fuel : nat) (addr : Z) (buf buf' : list Z) (nostop : bool)
         (deadline : Z) (s s' : state),
    rx c dev fuel addr buf nostop deadline s = Returns ((None, buf'), s') ->
    data_cmd_stores (io s')
    = rev (read_frames c (restartOnNext (self s)) nostop (length buf))
      ++ data_cmd_stores (io s)
    /\ (exists L, data_cmd_loads (io s') = L ++ data_cmd_loads (io s)
                  /\ buf' = map uint8 (rev L))
    /\ (buf <> [] -> restartOnNext (self s') = nostop).
Proof.
  intros fuel addr buf buf' nostop deadline s s' H. unfold rx in H.
  destruct (_ || _).
  { ret_inv H as He Hs. discriminate He. }
  destruct (length buf =? 0)%nat eqn:E.
  { ret_inv H as He Hs. injection He as ->. subst s'.
    apply Nat.eqb_eq in E. destruct buf; [|discriminate E].
    split; [reflexivity|]. split; [|congruence].
    exists []. split; reflexivity. }
  bind_inv H as u1 s1 H1. bind_inv H as u2 s2 H2. bind_inv H as u3 s3 H3.
  injection H1 as _ <-. injection H2 as _ <-. injection H3 as _ <-.
  bind_inv H as e s4 H4.
  destruct e as [[|abort reason byteCtr] b4].
  { ret_inv H as He Hs. discriminate He. }
  bind_inv H as u5 s5 H5. injection H5 as _ <-.
  ret_inv H as He Hs. subst s'.
  destruct abort; [discriminate He|]. injection He as ->.
  apply rx_loop_completes in H4 as (S4 & D4 & (L & EL & EB)); [|reflexivity].
  cbn [io self set_restartOnNext restartOnNext]. split; [exact D4|].
  split; [|reflexivity].
  exists L. split; [exact EL | exact EB].
Qed.

(** X9: when rx returns nil, it has stored one read command per byte of
    the buffer (restart bit on the first when restartOnNext was set at
    the call, stop bit on the last unless noStop), and the buffer it
    returns holds, in order, the low eight bits of the values it loaded
    from IC_DATA_CMD during the call. *)
Theorem rx_success_delivers :
  forall (fuel : nat) (addr : Z) (buf buf' : list Z) (nostop : bool)
         (deadline : Z) (s s' : state),
    rx c dev fuel addr buf nostop deadline s = Returns ((None, buf'), s') ->
    data_cmd_stores (io s')
    = rev (read_frames c (restartOnNext (self s)) nostop (length buf))
      ++ data_cmd_stores (io s)
    /\ exists L, data_cmd_loads (io s') = L ++ data_cmd_loads (io s)
                 /\ buf' = map uint8 (rev L).
Proof.
  intros fuel addr buf buf' nostop deadline s s' H.
  destruct (rx_nil_summary fuel addr buf buf' nostop deadline s s' H)
    as (Hstores & Hbytes & _).
  split; [exact Hstores | exact Hbytes].
Qed.

Lemma rx_loop_shape (fuel : nat) (nostop tc : bool) :
  forall (todo byteCtr : nat) (reason : Z) (buf : list Z) (s s' : state)
         (e : loop_exit) (buf' : list Z),
    length buf = (byteCtr + todo)%nat ->
    rx_loop c dev fuel nostop tc todo byteCtr false reason buf s
      = Returns ((e, buf'), s') ->
    length buf' = length buf
    /\ forall a r k, e = LoopDone a r k ->
         (a = true -> (k < length buf)%nat)
         /\ (byteCtr <= k)%nat
         /\ drop k buf' = drop k buf.
Proof.
  induction todo as [|todo IH];
    intros byteCtr reason buf s s' e buf' L H; cbn [rx_loop] in H.
  - ret_inv H as He Hs. injection He as -> ->.
    split; [reflexivity|]. intros a r k E. injection E as <- _ <-.
    split; [discriminate|]. split; [lia | reflexivity].
  - bind_inv H as u1 s1 H1. bind_inv H as restart s2 H2.
    bind_inv H as u3 s3 H3. bind_inv H as p s4 H4.
    destruct p as [|abort2 reason2].
    { ret_inv H as He Hs. injection He as -> ->.
      split; [reflexivity|]. intros a r k E. discriminate E. }
    destruct abort2.
    { ret_inv H as He Hs. injection He as -> ->.
      split; [reflexivity|]. intros a r k E. injection E as _ _ <-.
      split; [lia|]. split; [lia | reflexivity]. }
    bind_inv H as v s5 H5.
    destruct (byteCtr <? length buf)%nat; [|discriminate H].
    apply IH in H as [Hl Hk]; [|rewrite length_insert; lia].
    rewrite length_insert in Hl, Hk.
    split; [exact Hl|]. intros a r k E.
    destruct (Hk a r k E) as (K1 & K2 & K3).
    split; [exact K1|]. split; [lia|].
    rewrite K3. apply drop_insert_lt. lia.
Qed.

(** X10: rx returns a buffer of the length it was given, and the index
    carried by its data error is the index of a byte of the buffer (the
    one being read when the abort was seen); the bytes from that index
    on are as they were before the call. *)
Theorem rx_data_error_index :
  forall (fuel : nat) (addr : Z) (buf buf' : list Z) (nostop : bool)
         (deadline : Z) (s s' : state) (r : option error),
    rx c dev fuel addr buf nostop deadline s = Returns ((r, buf'), s') ->
    length buf' = length buf
    /\ forall k, r = Some (i2cBuffError k) ->
         0 <= k < Z.of_nat (length buf)
         /\ drop (Z.to_nat k) buf' = drop (Z.to_nat k) buf.
Proof.
  intros fuel addr buf buf' nostop deadline s s' r H. unfold rx in H.
  destruct (_ || _).
  { ret_inv H as He Hs. injection He as -> ->.
    split; [reflexivity|]. intros k E. discriminate E. }
  destruct (length buf =? 0)%nat.
  { ret_inv H as He Hs. injection He as -> ->.
    split; [reflexivity|]. intros k E. discriminate E. }
  bind_inv H as u1 s1 H1. bind_inv H as u2 s2 H2. bind_inv H as u3 s3 H3.
  bind_inv H as e s4 H4. destruct e as [e b4].
  apply rx_loop_shape in H4 as [Hl Hk]; [|reflexivity].
  destruct e as [|abort reason byteCtr].
  { ret_inv H as He Hs. injection He as -> ->.
    split; [exact Hl|]. intros k E. discriminate E. }
  bind_inv H as u5 s5 H5. ret_inv H as He Hs. injection He as -> ->.
  split; [exact Hl|]. intros k E.
  destruct abort; [|discriminate E].
  destruct (Hk true reason byteCtr eq_refl) as (K1 & _ & K3).
  specialize (K1 eq_refl).
  unfold rx_classify, makeI2CBuffError in E.
  destruct (_ || _); [discriminate E|]. injection E as <-.
  rewrite Nat2Z.id. split; [lia | exact K3].
Qed.

Lemma rx_loop_unchecked (fuel : nat) (nostop : bool) :
  forall (todo byteCtr : nat) (abort : bool) (reason : Z) (buf : list Z)
         (s s' : state) (e : loop_exit) (buf' : list Z),
    rx_loop c dev fuel nostop false todo byteCtr abort reason buf s
      = Returns ((e, buf'), s') ->
    e <> TimedOut.
Proof.
  induction todo as [|todo IH];
    intros byteCtr abort reason buf s s' e buf' H; cbn [rx_loop] in H.
  - ret_inv H as He Hs. injection He as -> _. discriminate.
  - bind_inv H as u1 s1 H1. bind_inv H as restart s2 H2.
    bind_inv H as u3 s3 H3. bind_inv H as p s4 H4.
    apply wait_readAvailable_unchecked in H4.
    destruct p as [|abort2 reason2]; [congruence|].
    destruct abort2.
    { ret_inv H as He Hs. injection He as -> _. discriminate. }
    bind_inv H as v s5 H5.
    destruct (byteCtr <? length buf)%nat; [|discriminate H].
    eapply IH; eauto.
Qed.

(** X11: with a non-zero deadline (the timeout check of rx is then off)
    rx never returns errI2CTimeout. *)
Theorem rx_nonzero_deadline_never_times_out :
  forall (fuel : nat) (addr : Z) (buf buf' : list Z) (nostop : bool)
         (deadline : Z) (s s' : state) (r : option error),
    deadline <> 0 ->
    rx c dev fuel addr buf nostop deadline s = Returns ((r, buf'), s') ->
    r <> Some errI2CTimeout.
Proof.
  intros fuel addr buf buf' nostop deadline s s' r Hd H. unfold rx in H.
  destruct (_ || _).
  { ret_inv H as He Hs. injection He as -> _. discriminate. }
  destruct (length buf =? 0)%nat.
  { ret_inv H as He Hs. injection He as -> _. discriminate. }
  bind_inv H as u1 s1 H1. bind_inv H as u2 s2 H2. bind_inv H as u3 s3 H3.
  bind_inv H as e s4 H4. destruct e as [e b4].
  replace (deadline =? 0) with false in H4
    by (symmetry; apply Z.eqb_neq; exact Hd).
  apply rx_loop_unchecked in H4.
  destruct e as [|abort reason byteCtr]; [congruence|].
  bind_inv H as u5 s5 H5. ret_inv H as He Hs. injection He as -> _.
  destruct abort; [|discriminate].
  unfold rx_classify, makeI2CBuffError. destruct (_ || _); discriminate.
Qed.

End ReadResults.

(** X9 on a two-byte read from a device that always has 0x15a to hand:
    two read commands (0x100, then 0x300 with the stop bit) and the
    buffer holds 0x5a twice. *)
Lemma rx_success_delivers_witness :
  exists s',
    rx rp2040 (ready 0x15a) 1 0x10 [0; 0] false 5 idle
      = Returns ((None, [0x5a; 0x5a]), s')
    /\ data_cmd_stores (io s') = rev [0x100; 0x300] ++ []
    /\ exists L, data_cmd_loads (io s') = L ++ []
                 /\ [0x5a; 0x5a] = map uint8 (rev L).
Proof.
  eexists. split; [vm_compute; reflexivity|].
  apply (rx_success_delivers rp2040 (ready 0x15a) 1 0x10 [0; 0] [0x5a; 0x5a]
           false 5 idle).
  vm_compute; reflexivity.
Defined.

(** X10 on a three-byte read aborted while reading the second byte. *)
Lemma rx_data_error_index_witness :
  exists s',
    rx rp2040 nack_after_one_byte 2 0x10 [7; 8; 9] false 5 idle
      = Returns ((Some (i2cBuffError 1), [0x5a; 8; 9]), s')
    /\ length [0x5a; 8; 9] = length [7; 8; 9]
    /\ 0 <= 1 < 3
    /\ drop 1 [0x5a; 8; 9] = drop 1 [7; 8; 9].
Proof.
  eexists. split; [vm_compute; reflexivity|].
  destruct (rx_data_error_index rp2040 nack_after_one_byte 2 0x10 [7; 8; 9]
              [0x5a; 8; 9] false 5 idle _ (Some (i2cBuffError 1))
              ltac:(vm_compute; reflexivity)) as [Hl Hk].
  split; [exact Hl|]. exact (Hk 1 eq_refl).
Defined.

(** X11 on a read that is not acknowledged. *)
Lemma rx_nonzero_deadline_never_times_out_witness :
  exists s',
    rx rp2040 (nack_once 0x1) 2 0x10 [0] false 5 idle
      = Returns ((Some errI2CGeneric, [0]), s')
    /\ Some errI2CGeneric <> Some errI2CTimeout.
Proof.
  eexists. split; [vm_compute; reflexivity|].
  eapply (rx_nonzero_deadline_never_times_out rp2040 (nack_once 0x1) 2 0x10
            [0] [0] false 5 idle); [lia | vm_compute; reflexivity].
Defined.

(** ** Addresses and command words of the RP2040 *)

Lemma forallb_below (f : Z -> bool) (n : nat) :
  forallb f (map Z.of_nat (seq 0 n)) = true ->
  forall b, 0 <= b < Z.of_nat n -> f b = true.
Proof.
  intros H b Hb. rewrite forallb_forall in H. apply H.
  apply in_map_iff. exists (Z.to_nat b). split; [lia|].
  apply in_seq. lia.
Qed.

(** X12: among the values of a uint8, the addresses tx and rx accept are
    exactly 0x08 to 0x77. *)
Theorem valid_addr_range :
  forall addr : Z,
    0 <= addr < 256 ->
    (valid_addr addr = true <-> 0x08 <= addr <= 0x77).
Proof.
  intros addr Ha.
  assert (E : Bool.eqb (valid_addr addr) ((0x08 <=? addr) && (addr <=? 0x77))
              = true).
  { apply (forallb_below
             (fun a => Bool.eqb (valid_addr a) ((0x08 <=? a) && (a <=? 0x77)))
             256); [vm_compute; reflexivity | exact Ha]. }
  apply Bool.eqb_prop in E. rewrite E, andb_true_iff, !Z.leb_le. reflexivity.
Qed.

(** X13: on the RP2040 a command word decodes to what it was built from:
    bit 10 is the restart flag (first byte and restartOnNext), bit 9 the
    stop flag (last byte and not noStop), the low eight bits are the
    byte, and the word fits 32 bits. *)
Theorem data_cmd_decode :
  forall (first last restart nostop : bool) (b : Z),
    0 <= b < 256 ->
    Z.testbit (data_cmd rp2040 first last restart nostop b) 10
      = first && restart
    /\ Z.testbit (data_cmd rp2040 first last restart nostop b) 9
      = last && negb nostop
    /\ Z.land (data_cmd rp2040 first last restart nostop b) 0xff = b
    /\ uint32 (data_cmd rp2040 first last restart nostop b)
      = data_cmd rp2040 first last restart nostop b.
Proof.
  intros first last restart nostop b Hb.
  pose (f := fun b : Z =>
     Bool.eqb (Z.testbit (data_cmd rp2040 first last restart nostop b) 10)
       (first && restart)
     && Bool.eqb (Z.testbit (data_cmd rp2040 first last restart nostop b) 9)
          (last && negb nostop)
     && (Z.land (data_cmd rp2040 first last restart nostop b) 0xff =? b)
     && (uint32 (data_cmd rp2040 first last restart nostop b)
         =? data_cmd rp2040 first last restart nostop b)).
  assert (E : f b = true).
  { apply (forallb_below f 256); [|exact Hb].
    subst f. destruct first, last, restart, nostop; vm_compute; reflexivity. }
  subst f. cbv beta in E. rewrite !andb_true_iff in E.
  destruct E as [[[E1 E2] E3] E4].
  apply Bool.eqb_prop in E1, E2. apply Z.eqb_eq in E3, E4.
  repeat split; assumption.
Qed.

(** X12 at address 0x77. *)
Lemma valid_addr_range_witness :
  valid_addr 0x77 = true <-> 0x08 <= 0x77 <= 0x77.
Proof. apply (valid_addr_range 0x77). lia. Defined.

(** X13 on the first and last byte 0x5a of a write that continues an
    open transaction and closes it. *)
Lemma data_cmd_decode_witness :
  Z.testbit (data_cmd rp2040 true true true false 0x5a) 10 = true
  /\ Z.testbit (data_cmd rp2040 true true true false 0x5a) 9 = true
  /\ Z.land (data_cmd rp2040 true true true false 0x5a) 0xff = 0x5a
  /\ uint32 (data_cmd rp2040 true true true false 0x5a)
    = data_cmd rp2040 true true true false 0x5a.
Proof. apply (data_cmd_decode true true true false 0x5a). lia. Defined.

(** ** Calls in sequence *)

Section Sequences.

Variable c : rp.
Variable dev : device.

Lemma tx_returns_restartOnNext (fuel : nat) (addr : Z) (data : list Z)
    (nostop : bool) (timeout : Z) (s s' : state) (r : option error) :
  valid_addr addr = true -> data <> [] ->
  tx c dev fuel addr data nostop timeout s = Returns (r, s') ->
  restartOnNext (self s') = nostop.
Proof.
  intros Hv Hne H. apply valid_addr_guard in Hv.
  unfold tx in H. rewrite Hv in H.
  destruct data as [|b data]; [congruence|]. cbn [length Nat.eqb] in H.
  bind_inv H as u1 s1 H1. bind_inv H as u2 s2 H2. bind_inv H as u3 s3 H3.
  bind_inv H as e s4 H4. destruct e as [|abort reason byteCtr].
  - ret_inv H as He Hs; subst. eapply tx_loop_timeout; eauto.
  - bind_inv H as u5 s5 H5. ret_inv H as He Hs; subst.
    eapply put_restartOnNext_self; eauto.
Qed.

Lemma rx_returns_restartOnNext (fuel : nat) (addr : Z) (buf : list Z)
    (nostop : bool) (deadline : Z) (s s' : state)
    (r : option error * list Z) :
  valid_addr addr = true -> buf <> [] ->
  rx c dev fuel addr buf nostop deadline s = Returns (r, s') ->
  restartOnNext (self s') = nostop.
Proof.
  intros Hv Hne H. apply valid_addr_guard in Hv.
  unfold rx in H. rewrite Hv in H.
  destruct buf as [|b buf]; [congruence|]. cbn [length Nat.eqb] in H.
  bind_inv H as u1 s1 H1. bind_inv H as u2 s2 H2. bind_inv H as u3 s3 H3.
  bind_inv H as e s4 H4. destruct e as [[|abort reason byteCtr] buf'].
  - ret_inv H as He Hs; subst. eapply rx_loop_timeout; eauto.
  - bind_inv H as u5 s5 H5. ret_inv H as He Hs; subst.
    eapply put_restartOnNext_self; eauto.
Qed.

(** X14: a write that returned (valid address, at least one byte)
    decides the start of the next transfer by its noStop flag alone.  The
    first command word of a following write (no timeout passed), and of a
    following read that returns nil, carries the restart bit exactly when
    the first write was called with noStop. *)
Theorem restart_follows_nostop :
  forall (fuel : nat) (addr : Z) (data : list Z) (nostop : bool)
         (timeout : Z) (s s1 : state) (r : option error),
    valid_addr addr = true ->
    data <> [] ->
    tx c dev fuel addr data nostop timeout s = Returns (r, s1) ->
    (forall fuel2 addr2 data2 nostop2 s2 r2,
        valid_addr addr2 = true ->
        tx c dev fuel2 addr2 data2 nostop2 0 s1 = Returns (r2, s2) ->
        data_cmd_stores (io s2)
        = rev (frames c nostop nostop2 data2) ++ data_cmd_stores (io s1))
    /\ (forall fuel2 addr2 buf2 buf2' nostop2 deadline2 s2,
        rx c dev fuel2 addr2 buf2 nostop2 deadline2 s1
          = Returns ((None, buf2'), s2) ->
        data_cmd_stores (io s2)
        = rev (read_frames c nostop nostop2 (length buf2))
          ++ data_cmd_stores (io s1)).
Proof.
  intros fuel addr data nostop timeout s s1 r Hv Hne H.
  apply tx_returns_restartOnNext in H; [|assumption..].
  split.
  - intros fuel2 addr2 data2 nostop2 s2 r2 Hv2 H2.
    apply tx_unchecked_summary in H2 as [H2 _]; [|exact Hv2].
    rewrite H in H2. exact H2.
  - intros fuel2 addr2 buf2 buf2' nostop2 deadline2 s2 H2.
    apply rx_nil_summary in H2 as [H2 _].
    rewrite H in H2. exact H2.
Qed.

(** X15: Tx closes the transaction.  When Tx returns after a transfer
    to a valid address with something to write or to read, restartOnNext
    is false, whatever it was before and whether the transfer succeeded
    or not. *)
Theorem Tx_ends_transaction :
  forall (fuel : nat) (a : Z) (w r : list Z) (s s' : state)
         (res : option error * list Z),
    valid_addr (a mod 256) = true ->
    w <> [] \/ r <> [] ->
    Tx c dev fuel a w r s = Returns (res, s') ->
    restartOnNext (self s') = false.
Proof.
  intros fuel a w r s s' res Hv Hne H.
  unfold Tx, uint8 in H. change (2 ^ 8) with 256 in H.
  bind_inv H as err s1 H1.
  destruct w as [|b w].
  - cbn [length Nat.ltb Nat.leb] in H1. ret_inv H1 as He Hs. subst.
    destruct Hne as [Hne | Hne]; [congruence|].
    destruct r as [|b r]; [congruence|].
    cbn [length Nat.ltb Nat.leb] in H.
    eapply rx_returns_restartOnNext in H; [exact H | exact Hv | discriminate].
  - cbn [length Nat.ltb Nat.leb] in H1.
    apply tx_returns_restartOnNext in H1; [|exact Hv | discriminate].
    destruct err as [e|].
    + ret_inv H as He Hs. subst. exact H1.
    + destruct r as [|b' r].
      * cbn [length Nat.ltb Nat.leb] in H. ret_inv H as He Hs. subst.
        exact H1.
      * cbn [length Nat.ltb Nat.leb] in H.
        eapply rx_returns_restartOnNext in H;
          [exact H | exact Hv | discriminate].
Qed.

(** X16: Tx checks the address only when there is something to
    transfer.  With an invalid low address byte and a non-empty write or
    read it returns errInvalidTgtAddr in the state of the call, the read
    buffer untouched; with both slices empty it returns nil for every
    address. *)
Theorem Tx_address_check :
  forall (fuel : nat) (a : Z) (w r : list Z) (s : state),
    (valid_addr (a mod 256) = false ->
     w <> [] \/ r <> [] ->
     Tx c dev fuel a w r s = Returns ((Some errInvalidTgtAddr, r), s))
    /\ Tx c dev fuel a [] [] s = Returns ((None, []), s).
Proof.
  intros fuel a w r s. split; [|reflexivity].
  intros Hv Hne. unfold valid_addr in Hv. apply negb_false_iff in Hv.
  unfold Tx, uint8. change (2 ^ 8) with 256.
  destruct w as [|b w].
  - destruct Hne as [Hne | Hne]; [congruence|].
    destruct r as [|b r]; [congruence|].
    cbn [length Nat.ltb Nat.leb]. erewrite bind_step by reflexivity.
    unfold rx. rewrite Hv. reflexivity.
  - cbn [length Nat.ltb Nat.leb].
    erewrite bind_step by (unfold tx; rewrite Hv; reflexivity).
    reflexivity.
Qed.

End Sequences.

(** X14: a one-byte write with noStop, then a one-byte write, or a
    one-byte read, that closes the transaction: the following command
    word has the restart bit (0x400) and the stop bit (0x200). *)
Lemma restart_follows_nostop_witness :
  exists s1 s2 s3,
    tx rp2040 (ready 0x5a) 1 0x10 [1] true 0 idle = Returns (None, s1)
    /\ tx rp2040 (ready 0x5a) 1 0x10 [2] false 0 s1 = Returns (None, s2)
    /\ data_cmd_stores (io s2) = rev [0x602] ++ data_cmd_stores (io s1)
    /\ rx rp2040 (ready 0x5a) 1 0x10 [0] false 5 s1
        = Returns ((None, [0x5a]), s3)
    /\ data_cmd_stores (io s3) = rev [0x700] ++ data_cmd_stores (io s1).
Proof.
  eexists _, _, _.
  split; [vm_compute; reflexivity|].
  destruct (restart_follows_nostop rp2040 (ready 0x5a) 1 0x10 [1] true 0
              idle _ None eq_refl ltac:(discriminate)
              ltac:(vm_compute; reflexivity)) as [Hw Hr].
  split; [vm_compute; reflexivity|].
  split; [apply (Hw 1%nat 0x10 [2] false _ None eq_refl);
          vm_compute; reflexivity|].
  split; [vm_compute; reflexivity|].
  apply (Hr 1%nat 0x10 [0] [0x5a] false 5). vm_compute; reflexivity.
Defined.

(** X15 on a write of one byte and a read of one byte, called with a
    transaction left open. *)
Lemma Tx_ends_transaction_witness :
  exists s',
    Tx rp2040 (ready 0x5a) 1 0x10 [1] [0] idle_open
      = Returns ((None, [0x5a]), s')
    /\ restartOnNext (self s') = false.
Proof.
  eexists. split; [vm_compute; reflexivity|].
  apply (Tx_ends_transaction rp2040 (ready 0x5a) 1 0x10 [1] [0] idle_open _
           (None, [0x5a])).
  - reflexivity.
  - left. discriminate.
  - vm_compute; reflexivity.
Defined.

(** X16 at the 16-bit address 0x100, whose low byte is the reserved
    address 0. *)
Lemma Tx_address_check_witness :
  Tx rp2040 quiet 1 0x100 [1] [0] idle
    = Returns ((Some errInvalidTgtAddr, [0]), idle)
  /\ Tx rp2040 quiet 1 0x100 [] [] idle = Returns ((None, []), idle).
Proof.
  destruct (Tx_address_check rp2040 quiet 1 0x100 [1] [0] idle) as [Hi He].
  split; [|exact He].
  apply Hi; [reflexivity | left; discriminate].
Defined.

(** ** Installing the dispatcher and dispatching *)

Section Registration.

Variable c : rp.
Variable dev : device.





Lemma irqSetExclusiveHandler_occupied (fuel : nat) (num : Z)
    (handler : option irqHandler) (h : irqHandler) (s : state) :
  (num >=? _NUMIRQ) = false ->
  vtable s !! Z.to_nat (num + 16) = Some (Some h) ->
  forall r, irqSetExclusiveHandler dev fuel num handler s <> Returns r.
Proof.
  intros G V r. unfold irqSetExclusiveHandler. rewrite G.
  erewrite bind_step by reflexivity.
  destruct (spinLock_lock_cases dev fuel (SPINLOCK _PICO_SPINLOCK_ID_IRQ) s)
    as [E | (s2 & E & V2)].
  - rewrite (bind_Spins _ _ _ E). discriminate.
  - erewrite bind_step by exact E.
    assert (C : getVtableHandler num s2 = Returns (Some h, s2)).
    { unfold getVtableHandler. rewrite G, V2, V. reflexivity. }
    erewrite bind_step by exact C. discriminate.
Qed.

(** X18: setIRQ works once.  After a setIRQ call that returned, no
    further setIRQ call returns, whatever the core, the pin, the change
    and the callback: the dispatcher is already in the vector table and
    the exclusive installation panics on it. *)
Theorem setIRQ_only_once :
  forall (fuel : nat) (core p change : Z) (cb : option callback)
         (s s' : state),
    setIRQ c dev fuel core p change cb s = Returns (tt, s') ->
    forall fuel2 core2 p2 change2 cb2 r,
      setIRQ c dev fuel2 core2 p2 change2 cb2 s' <> Returns r.
Proof.
  intros fuel core p change cb s s' H fuel2 core2 p2 change2 cb2 r H2.
  unfold setIRQ in H.
  bind_inv H as u1 s1 H1. bind_inv H as u2 s2 Hc.
  bind_inv H as u3 s3 H3. destruct u3.
  apply irqSetExclusiveHandler_installs in H3 as [G V].
  assert (V' : vtable s' = vtable s3).
  { unfold irqSet in H. rewrite G in H. unfold irqSetMask in H.
    bind_inv H as u4 s4 H4. injection H4 as _ <-. injection H as <-.
    reflexivity. }
  unfold setIRQ in H2.
  bind_inv H2 as v1 t1 K1. injection K1 as _ <-.
  bind_inv H2 as v2 t2 K2.
  assert (Vt : vtable t2 = vtable s').
  { unfold store_pinCallback in K2. destruct (_ && _); [|discriminate K2].
    injection K2 as _ <-. reflexivity. }
  bind_inv H2 as v3 t3 K3.
  eapply irqSetExclusiveHandler_occupied in K3; [exact K3 | exact G|].
  rewrite Vt, V'. exact V.
Qed.

Section Dispatching.

Variable getIntChange : Z -> Z -> Z.
Variable core : Z.
Variable banks : Z -> Z.
Hypothesis status_is_banks :
  forall (h : log) (idx : Z), uint32 (dev h (PROC_INTS core idx)) = banks idx.

(** A scan that finds nothing pending. *)
Lemma gpio_scan_nothing :
  forall (todo : nat) (gpio : Z) (s : state),
    (forall q, gpio <= q < gpio + Z.of_nat todo ->
               getIntChange q (banks (Z.shiftr q 3)) = 0) ->
    gpio_scan dev getIntChange todo core gpio s
    = Panics "gpio INT status not found".
Proof using status_is_banks.
  induction todo as [|todo IH]; intros gpio s Hq; cbn [gpio_scan].
  - reflexivity.
  - rewrite (bind_step _ _ _ _ _ (Get_status dev core banks
                                    status_is_banks _ s)).
    rewrite (Hq gpio) by lia. cbn [Z.eqb negb].
    apply IH. intros q Hq'. apply Hq. lia.
Qed.

(** A scan up to the lowest pending pin: the acknowledge and the call
    follow the loads. *)
Lemma gpio_scan_reaches :
  forall (n todo : nat) (gpio p : Z) (s : state),
    (n < todo)%nat ->
    p = gpio + Z.of_nat n ->
    (forall q, gpio <= q < p -> getIntChange q (banks (Z.shiftr q 3)) = 0) ->
    getIntChange p (banks (Z.shiftr p 3)) <> 0 ->
    gpio_scan dev getIntChange todo core gpio s
    = call_pinCallback core p
        (emit (AcknowledgeInterrupt p (getIntChange p (banks (Z.shiftr p 3))))
           (scanned banks core (S n) gpio s)).
Proof using status_is_banks.
  induction n as [|n IH]; intros todo gpio p s Hn Hp Hlow Hpend;
    (destruct todo as [|todo]; [lia|]); cbn [gpio_scan scanned].
  - assert (E : p = gpio) by lia. clear Hp. subst p.
    rewrite (bind_step _ _ _ _ _ (Get_status dev core banks
                                    status_is_banks _ s)).
    apply Z.eqb_neq in Hpend. rewrite Hpend. cbn [negb].
    erewrite bind_step by reflexivity. reflexivity.
  - rewrite (bind_step _ _ _ _ _ (Get_status dev core banks
                                    status_is_banks _ s)).
    rewrite (Hlow gpio) by lia. cbn [Z.eqb negb].
    apply IH; try assumption; try lia.
    intros q Hq. apply Hlow. lia.
Qed.

End Dispatching.

(** X19: a dispatcher call that finds no pin pending on the executing
    core panics (a spurious interrupt is fatal), after loading the status
    of all thirty pins. *)
Theorem gpioirqHandler_spurious :
  forall (getIntChange : Z -> Z -> Z) (core : Z) (banks : Z -> Z) (s : state),
    core = 0 \/ core = 1 ->
    (forall (h : log) (idx : Z),
        uint32 (dev h (PROC_INTS core idx)) = banks idx) ->
    (forall q, 0 <= q < _NUMBANK0_GPIOS ->
               getIntChange q (banks (Z.shiftr q 3)) = 0) ->
    gpioirqHandler dev getIntChange core s
    = Panics "gpio INT status not found".
Proof.
  intros getIntChange core banks s Hcore Hdev Hq.
  unfold gpioirqHandler.
  replace ((core =? 0) || (core =? 1)) with true
    by (destruct Hcore; subst; reflexivity).
  apply (gpio_scan_nothing getIntChange core banks Hdev).
  intros q Hq'. apply Hq. unfold _NUMBANK0_GPIOS in *. lia.
Qed.

(** X20: a pending pin on a core with no callback is fatal: the
    dispatcher panics, and it does so after acknowledging the pin. *)
Theorem gpioirqHandler_unset_callback :
  forall (getIntChange : Z -> Z -> Z) (core : Z) (banks : Z -> Z) (p : Z)
         (s : state),
    core = 0 \/ core = 1 ->
    (forall (h : log) (idx : Z),
        uint32 (dev h (PROC_INTS core idx)) = banks idx) ->
    0 <= p < _NUMBANK0_GPIOS ->
    getIntChange p (banks (Z.shiftr p 3)) <> 0 ->
    (forall q, 0 <= q < p -> getIntChange q (banks (Z.shiftr q 3)) = 0) ->
    pinCallbacks s !! Z.to_nat core = Some None ->
    gpioirqHandler dev getIntChange core s
    = Panics "unset callback in handler".
Proof.
  intros getIntChange core banks p s Hcore Hdev Hp Hpend Hlow Hcb.
  unfold gpioirqHandler.
  replace ((core =? 0) || (core =? 1)) with true
    by (destruct Hcore; subst; reflexivity).
  unfold _NUMBANK0_GPIOS in *.
  rewrite (gpio_scan_reaches getIntChange core banks Hdev (Z.to_nat p) _ 0 p)
    by (try assumption; lia).
  unfold call_pinCallback. cbn [pinCallbacks emit].
  replace (0 <=? core) with true by (destruct Hcore; subst; reflexivity).
  rewrite pinCallbacks_scanned, Hcb. reflexivity.
Qed.

Lemma spinLock_wait_pinCallbacks (fuel : nat) (lock : reg) :
  forall s s' u,
    spinLock_wait dev fuel lock s = Returns (u, s') ->
    pinCallbacks s' = pinCallbacks s.
Proof.
  induction fuel as [|fuel IH]; intros s s' u H; cbn [spinLock_wait] in H.
  - discriminate H.
  - bind_inv H as v s1 H1. apply Get_emit in H1. subst s1.
    destruct (negb _).
    + apply IH in H. exact H.
    + ret_inv H as He Hs. subst. reflexivity.
Qed.

Lemma setIRQ_registered (fuel : nat) (core p change : Z)
    (cb : option callback) (s s' : state) :
  setIRQ c dev fuel core p change cb s = Returns (tt, s') ->
  0 <= core /\ pinCallbacks s' !! Z.to_nat core = Some cb.
Proof.
  unfold setIRQ. intros H.
  bind_inv H as u1 s1 H1. injection H1 as _ <-.
  bind_inv H as u2 s2 H2.
  unfold store_pinCallback in H2.
  destruct (0 <=? core) eqn:C0; [|discriminate H2].
  destruct (Z.to_nat core <? length (pinCallbacks (emit _ s)))%nat eqn:C1;
    [|discriminate H2].
  cbn [andb] in H2. injection H2 as _ <-.
  apply Z.leb_le in C0. apply Nat.ltb_lt in C1. cbn [pinCallbacks emit] in C1.
  bind_inv H as u3 s3 H3.
  assert (P3 : pinCallbacks s3
               = <[Z.to_nat core := cb]> (pinCallbacks s)).
  { unfold irqSetExclusiveHandler in H3.
    destruct (_ >=? _); [discriminate H3|].
    bind_inv H3 as lock t1 K1. unfold spinLock_init in K1.
    destruct (_ >=? _); [discriminate K1|]. ret_inv K1 as He Hs. subst.
    bind_inv H3 as v2 t2 K2. unfold spinLock_lock in K2.
    bind_inv K2 as w1 r1 J1. injection J1 as _ <-.
    bind_inv K2 as w2 r2 J2. apply spinLock_wait_pinCallbacks in J2.
    injection K2 as _ <-.
    bind_inv H3 as current t3 K3. unfold getVtableHandler in K3.
    assert (t3 = emit Dmb r2) as ->.
    { destruct (_ >=? _); [ret_inv K3 as He Hs; exact Hs|].
      destruct (_ !! _); [|discriminate K3]. injection K3 as _ <-.
      reflexivity. }
    destruct current; [discriminate H3|].
    bind_inv H3 as v4 t4 K4. unfold setVtableHandler in K4.
    destruct (_ <? _)%nat; [|discriminate K4]. injection K4 as _ <-.
    injection H3 as _ <-. cbn [pinCallbacks emit set_vtable]. exact J2. }
  assert (pinCallbacks s' = pinCallbacks s3) as ->.
  { unfold irqSet in H. destruct (_ >=? _).
    - ret_inv H as He Hs. subst. reflexivity.
    - unfold irqSetMask in H. bind_inv H as u4 s4 H4.
      injection H4 as _ <-. injection H as <-. reflexivity. }
  split; [exact C0|].
  rewrite P3. apply list_lookup_insert_eq. exact C1.
Qed.

(** X21: registration and dispatch compose.  After a setIRQ call that
    returned on a core, a dispatcher call on that core with some pin
    pending acknowledges the lowest pending pin and calls the callback
    passed to setIRQ with that pin, which need not be the pin setIRQ
    was called on. *)
Theorem setIRQ_then_dispatch :
  forall (fuel : nat) (core p change : Z) (cb : callback) (s s' : state)
         (getIntChange : Z -> Z -> Z) (banks : Z -> Z) (q : Z),
    setIRQ c dev fuel core p change (Some cb) s = Returns (tt, s') ->
    core = 0 \/ core = 1 ->
    (forall (h : log) (idx : Z),
        uint32 (dev h (PROC_INTS core idx)) = banks idx) ->
    0 <= q < _NUMBANK0_GPIOS ->
    getIntChange q (banks (Z.shiftr q 3)) <> 0 ->
    (forall q', 0 <= q' < q -> getIntChange q' (banks (Z.shiftr q' 3)) = 0) ->
    gpioirqHandler dev getIntChange core s'
    = Returns (tt,
        emit (Call cb [q])
          (emit (AcknowledgeInterrupt q
                   (getIntChange q (banks (Z.shiftr q 3))))
             (scanned banks core (S (Z.to_nat q)) 0 s'))).
Proof.
  intros fuel core p change cb s s' getIntChange banks q H Hcore Hdev Hq
    Hpend Hlow.
  apply setIRQ_registered in H as [C0 Hcb].
  unfold gpioirqHandler.
  replace ((core =? 0) || (core =? 1)) with true
    by (destruct Hcore; subst; reflexivity).
  unfold _NUMBANK0_GPIOS in *.
  rewrite (gpio_scan_reaches getIntChange core banks Hdev (Z.to_nat q) _ 0 q)
    by (try assumption; lia).
  unfold call_pinCallback. cbn [pinCallbacks emit].
  replace (0 <=? core) with true by (symmetry; apply Z.leb_le; exact C0).
  rewrite pinCallbacks_scanned, Hcb. reflexivity.
Qed.

End Registration.


(** X18 after a first registration of pin 5 on core 0. *)
Lemma setIRQ_only_once_witness :
  exists s',
    setIRQ rp2040 quiet 1 0 5 4 (Some 7%nat) idle = Returns (tt, s')
    /\ forall fuel2 core2 p2 change2 cb2 r,
         setIRQ rp2040 quiet fuel2 core2 p2 change2 cb2 s' <> Returns r.
Proof.
  eexists. split; [vm_compute; reflexivity|].
  apply (setIRQ_only_once rp2040 quiet 1 0 5 4 (Some 7%nat) idle).
  vm_compute; reflexivity.
Defined.

(** X19 on core 1 with every status register reading 0. *)
Lemma gpioirqHandler_spurious_witness :
  gpioirqHandler quiet getIntChange_rp2040 1 armed
  = Panics "gpio INT status not found".
Proof.
  apply (gpioirqHandler_spurious quiet getIntChange_rp2040 1 (fun _ => 0)
           armed).
  - right. reflexivity.
  - intros h idx. reflexivity.
  - intros q Hq. unfold getIntChange_rp2040.
    rewrite Z.shiftr_0_l. reflexivity.
Defined.

(** X20 with pins 5 and 9 pending and no callback registered. *)
Lemma gpioirqHandler_unset_callback_witness :
  gpioirqHandler (pending two_pending) getIntChange_rp2040 0 idle
  = Panics "unset callback in handler".
Proof.
  apply (gpioirqHandler_unset_callback (pending two_pending)
           getIntChange_rp2040 0 two_pending 5 idle).
  - left. reflexivity.
  - intros h idx. unfold pending, two_pending.
    destruct (idx =? 0); [reflexivity|]. destruct (idx =? 1); reflexivity.
  - vm_compute. intuition discriminate.
  - vm_compute. discriminate.
  - intros q Hq.
    assert (q = 0 \/ q = 1 \/ q = 2 \/ q = 3 \/ q = 4) as C by lia.
    destruct C as [-> | [-> | [-> | [-> | ->]]]]; reflexivity.
  - reflexivity.
Defined.

(** X21: the callback is registered with pin 9, and pin 5, pending with
    a lower number, is the one it is called with. *)
Lemma setIRQ_then_dispatch_witness :
  exists s',
    setIRQ rp2040 (pending two_pending) 1 0 9 1 (Some 7%nat) idle
      = Returns (tt, s')
    /\ gpioirqHandler (pending two_pending) getIntChange_rp2040 0 s'
       = Returns (tt,
           emit (Call 7%nat [5])
             (emit (AcknowledgeInterrupt 5 4)
                (scanned two_pending 0 6 0 s'))).
Proof.
  eexists. split; [vm_compute; reflexivity|].
  apply (setIRQ_then_dispatch rp2040 (pending two_pending) 1 0 9 1 7%nat idle
           _ getIntChange_rp2040 two_pending 5).
  - vm_compute; reflexivity.
  - left. reflexivity.
  - intros h idx. unfold pending, two_pending.
    destruct (idx =? 0); [reflexivity|]. destruct (idx =? 1); reflexivity.
  - vm_compute. intuition discriminate.
  - vm_compute. discriminate.
  - intros q Hq.
    assert (q = 0 \/ q = 1 \/ q = 2 \/ q = 3 \/ q = 4) as C by lia.
    destruct C as [-> | [-> | [-> | [-> | ->]]]]; reflexivity.
Defined.

(** ** The reset of the block *)

Section Reset.

Variable c : rp.
Variable dev : device.

(** Clearing the bits of [rv] leaves none of them, also after the wrap to
    32 bits. *)
Lemma land_uint32_ldiff (old rv : Z) :
  Z.land (uint32 (Z.ldiff old rv)) rv = 0.
Proof.
  apply Z.bits_inj'. intros n Hn.
  rewrite Z.land_spec, Z.bits_0. unfold uint32.
  destruct (Z.lt_ge_cases n 32) as [L | G].
  - rewrite Z.mod_pow2_bits_low by lia. rewrite Z.ldiff_spec.
    destruct (Z.testbit old n), (Z.testbit rv n); reflexivity.
  - rewrite Z.mod_pow2_bits_high by lia. reflexivity.
Qed.

Lemma wait_reset_done_seen (fuel : nat) (resetVal : Z) :
  forall (s s' : state) (u : unit),
    wait_reset_done dev fuel resetVal s = Returns (u, s') ->
    self s' = self s
    /\ last_store RESETS_RESET (io s') = last_store RESETS_RESET (io s)
    /\ exists v l, io s' = Load RESETS_RESET_DONE v :: l
                   /\ Z.land v resetVal <> 0.
Proof.
  induction fuel as [|fuel IH]; intros s s' u H; cbn [wait_reset_done] in H.
  - discriminate H.
  - bind_inv H as done s1 H1. unfold HasBits in H1.
    bind_inv H1 as v s2 H2. apply Get_emit in H2. subst s2.
    ret_inv H1 as He Hs. subst done s1.
    destruct (Z.land v resetVal =? 0) eqn:E; cbn [negb] in H.
    + apply IH in H as (S' & L' & X). split; [exact S'|].
      split; [exact L' | exact X].
    + ret_inv H as He Hs. subst s'. split; [reflexivity|].
      split; [reflexivity|]. exists v, (io s).
      split; [reflexivity|]. apply Z.eqb_neq. exact E.
Qed.

(** X23: when reset returns, the reset bit of the block the object is
    bound to (I2C0 or I2C1) is clear in the value last stored to the
    reset register, the newest event is a load of RESET_DONE that showed
    that bit set, and restartOnNext is untouched. *)
Theorem reset_returns_when_done :
  forall (fuel : nat) (s s' : state),
    reset c dev fuel s = Returns (tt, s') ->
    let resetVal := match Bus (self s) with
                    | I2C0 => RESETS_RESET_I2C0 c
                    | I2C1 => RESETS_RESET_I2C1 c
                    end in
    (exists x, last_store RESETS_RESET (io s') = Some x
               /\ Z.land x resetVal = 0)
    /\ (exists v l, io s' = Load RESETS_RESET_DONE v :: l
                    /\ Z.land v resetVal <> 0)
    /\ self s' = self s.
Proof.
  intros fuel s s' H resetVal. unfold reset in H.
  bind_inv H as rv s1 H1. bind_inv H as u2 s2 H2.
  cbv [deinit get_Bus SetBits mbind M_bind Get Set_ mret M_ret] in H1.
  injection H1 as <- <-.
  cbv [ClearBits mbind M_bind Get Set_] in H2. injection H2 as _ <-.
  apply wait_reset_done_seen in H as (S' & L' & X).
  split; [|split; [exact X | exact S']].
  eexists. split; [rewrite L'; reflexivity|].
  apply land_uint32_ldiff.
Qed.

End Reset.

(** X23 on a device whose registers read all ones. *)
Lemma reset_returns_when_done_witness :
  exists s',
    reset rp2040 stuck 1 idle = Returns (tt, s')
    /\ (exists x, last_store RESETS_RESET (io s') = Some x
                  /\ Z.land x 0x8 = 0)
    /\ (exists v l, io s' = Load RESETS_RESET_DONE v :: l
                    /\ Z.land v 0x8 <> 0)
    /\ self s' = self idle.
Proof.
  eexists. split; [vm_compute; reflexivity|].
  apply (reset_returns_when_done rp2040 stuck 1 idle).
  vm_compute; reflexivity.
Defined.

(** X22 on a three-byte read aborted while reading the second byte. *)
Lemma rx_stops_at_abort_witness :
  exists s',
    rx rp2040 nack_after_one_byte 2 0x10 [7; 8; 9] false 5 idle
      = Returns ((Some (i2cBuffError 1), [0x5a; 8; 9]), s')
    /\ exists l, io s' = l ++ io idle /\ stops_at_abort l = true.
Proof.
  eexists. split; [vm_compute; reflexivity|].
  apply (rx_stops_at_abort rp2040 nack_after_one_byte 2 0x10 [7; 8; 9] false
           5 idle _ (Some (i2cBuffError 1), [0x5a; 8; 9])).
  vm_compute; reflexivity.
Defined.
